(** * Budget-Tracker: the transaction import pipeline

    A shallow embedding of [clean_description] and
    [clean_transaction_data] of [budget_tracker.py], and the properties of
    the ingestion specification checked against them.

    Python strings are sequences of Unicode code points and numbers are
    integers or binary64 floats. What pandas does inside its own calls
    ([pd.to_datetime] and [pd.to_numeric] on a column, [str] of a number,
    [astype(str)] of a missing value) is not code of the repository: it is
    the interface [Pandas], a parameter of the pipeline. *)

From Stdlib Require Import List NArith ZArith Bool Lia String Ascii.
From Stdlib Require Import Sorted DecimalString Floats Uint63.
Import ListNotations.

Set Warnings "-inexact-float".

Local Open Scope list_scope.

(** ** Python strings *)

Module PyStr.
Local Open Scope N_scope.

Definition char := N.
Definition pystr := list char.

(** An ASCII literal as a Python string. *)
Definition py (s : string) : pystr := map N_of_ascii (list_ascii_of_string s).
Arguments py _%_string.

Definition char_eqb (a b : char) : bool := N.eqb a b.

Fixpoint pystr_eqb (a b : pystr) : bool :=
  match a, b with
  | [], [] => true
  | x :: a', y :: b' => char_eqb x y && pystr_eqb a' b'
  | _, _ => false
  end.

(** [Py_UNICODE_ISSPACE]: the code points [str.strip], [str.split] and the
    regular-expression class [\s] treat as whitespace. *)
Definition is_space (c : char) : bool :=
  ((9 <=? c) && (c <=? 13)) || ((28 <=? c) && (c <=? 32))
  || (c =? 133) || (c =? 160) || (c =? 5760)
  || ((8192 <=? c) && (c <=? 8202))
  || (c =? 8232) || (c =? 8233) || (c =? 8239) || (c =? 8287)
  || (c =? 12288).

(** [str.lstrip()], [str.rstrip()] and [str.strip()]. *)
Fixpoint lstrip (s : pystr) : pystr :=
  match s with
  | [] => []
  | c :: s' => if is_space c then lstrip s' else s
  end.

Definition rstrip (s : pystr) : pystr := rev (lstrip (rev s)).

Definition strip (s : pystr) : pystr := rstrip (lstrip s).

(** [str.split()]: the maximal runs of non-whitespace, in order. *)
Fixpoint split (s : pystr) : list pystr :=
  match s with
  | [] => []
  | c :: s' =>
      if is_space c then split s'
      else match s' with
           | [] => [[c]]
           | d :: _ =>
               if is_space d then [c] :: split s'
               else match split s' with
                    | w :: ws => (c :: w) :: ws
                    | [] => [[c]]
                    end
           end
  end.

(** [' '.join(words)]. *)
Fixpoint join (ws : list pystr) : pystr :=
  match ws with
  | [] => []
  | w :: ws' =>
      match ws' with
      | [] => w
      | _ :: _ => w ++ 32 :: join ws'
      end
  end.

(** A word: non-empty and free of whitespace. *)
Definition word (w : pystr) : Prop :=
  w <> [] /\ Forall (fun c => is_space c = false) w.

(** [s.replace(old, new)] for a one-character [old], as the amount cleaning
    uses it ([regex=False]). *)
Fixpoint replace (old : char) (new : pystr) (s : pystr) : pystr :=
  match s with
  | [] => []
  | c :: s' => if char_eqb c old then new ++ replace old new s'
               else c :: replace old new s'
  end.

End PyStr.
Import PyStr.

(** ** Regular expressions of the form [^LITERAL\s*] under [re.IGNORECASE] *)

Module Re.
Local Open Scope N_scope.

(** Lower case of an ASCII pattern character. *)
Definition ascii_lower (p : char) : char :=
  if (65 <=? p) && (p <=? 90) then p + 32 else p.

(** The code points whose simple lower case is the ASCII character [lo]:
    itself, its capital when [lo] is a letter, and U+0130 for [i] and
    U+212A (Kelvin sign) for [k]. *)
Definition lowers_to (lo c : char) : bool :=
  (c =? lo)
  || ((97 <=? lo) && (lo <=? 122) && (c =? lo - 32))
  || ((lo =? 105) && (c =? 304))
  || ((lo =? 107) && (c =? 8490)).

(** The extra equivalents sre adds to a lower-case letter: dotless i
    (U+0131) for [i] and long s (U+017F) for [s]. *)
Definition ignorecase_fixes (lo : char) : list char :=
  if lo =? 105 then [305] else if lo =? 115 then [383] else [].

(** One literal pattern character against one text character with
    [flags=re.IGNORECASE]. *)
Definition literal_ignorecase (p c : char) : bool :=
  let lo := ascii_lower p in
  lowers_to lo c || existsb (N.eqb c) (ignorecase_fixes lo).

(** The literal part of a pattern matched at the start of the text; the
    result is the text after it. *)
Fixpoint match_literal (pat text : pystr) : option pystr :=
  match pat with
  | [] => Some text
  | p :: pat' =>
      match text with
      | [] => None
      | c :: text' =>
          if literal_ignorecase p c then match_literal pat' text' else None
      end
  end.

Definition matches (pat text : pystr) : bool :=
  match match_literal pat text with Some _ => true | None => false end.

(** [re.sub('^' + literal + '\s*', '', text, flags=re.IGNORECASE)]: the
    anchor allows one match, at position 0, and the greedy [\s*] takes the
    whole whitespace run after the literal. *)
Definition sub_prefix (pat text : pystr) : pystr :=
  match match_literal pat text with
  | Some rest => lstrip rest
  | None => text
  end.

End Re.
Import Re.

(** ** [clean_description] *)

Definition prefixes_to_remove : list pystr :=
  [ py "TST*"; py "SQ *"; py "PP*"; py "SP *"; py "PAYPAL *"; py "POS";
    py "DEBIT" ].

(** The loop [for prefix in prefixes_to_remove: text = re.sub(...)]. *)
Definition remove_prefixes (prefixes : list pystr) (text : pystr) : pystr :=
  fold_left (fun text prefix => sub_prefix prefix text) prefixes text.

(** [clean_description(description)]; [None] is a missing value, for which
    [pd.isna] holds. *)
Definition clean_description (description : option pystr) : pystr :=
  match description with
  | None => []
  | Some [] => []
  | Some d =>
      let text := strip d in
      let text := remove_prefixes prefixes_to_remove text in
      join (split text)
  end.

(** The normalizer on a string. *)
Definition normalize (s : pystr) : pystr := clean_description (Some s).

(** The normalizer as the specification words it: after trimming, only the
    first pattern of the list that matches is removed. *)
Fixpoint remove_first_match (prefixes : list pystr) (text : pystr) : pystr :=
  match prefixes with
  | [] => text
  | p :: ps => if matches p text then sub_prefix p text
               else remove_first_match ps text
  end.

Definition normalize_first_match_only (s : pystr) : pystr :=
  match s with
  | [] => []
  | _ => join (split (remove_first_match prefixes_to_remove (strip s)))
  end.

(** The patterns listed after the first one that matches. *)
Fixpoint later_prefixes (prefixes : list pystr) (text : pystr) : list pystr :=
  match prefixes with
  | [] => []
  | p :: ps => if matches p text then ps else later_prefixes ps text
  end.

Definition starts_with_prefix (prefixes : list pystr) (text : pystr) : bool :=
  existsb (fun p => matches p text) prefixes.

(** ** Numbers, cells and tables *)

(** A number of a frame: an integer of an integer column, or a binary64
    float of a float column. *)
Inductive Number : Type :=
| Int (z : Z)
| Float (f : float).

(** [pd.isna] on a number. *)
Definition isna (x : Number) : bool :=
  match x with
  | Int _ => false
  | Float f => PrimFloat.is_nan f
  end.

(** [Series.abs()]; on an [int64] column the least integer wraps to
    itself. *)
Definition abs_number (x : Number) : Number :=
  match x with
  | Int z => Int (if (z =? -9223372036854775808)%Z then z else Z.abs z)
  | Float f => Float (PrimFloat.abs f)
  end.

(** [amount > 0]; [NaN] compares false. *)
Definition positive (x : Number) : bool :=
  match x with
  | Int z => (0 <? z)%Z
  | Float f => PrimFloat.ltb PrimFloat.zero f
  end.

(** A raw cell as the file reader delivers it: missing ([NaN]), text, or a
    number. *)
Inductive Cell : Type :=
| CNull
| CStr (s : pystr)
| CNum (x : Number).

(** A [DataFrame]: the header and the rows, each row aligned with the
    header; its index is [0 .. len-1]. Header names are distinct, as the
    pandas readers make them. *)
Record DataFrame : Type := mkDataFrame {
  columns : list pystr;
  rows : list (list Cell)
}.

Record Date : Type := mkDate { year : N; month : N; day : N }.

Inductive Exception : Type :=
| KeyError (col : pystr)
| DateParseError (value : Cell).

(** The message of the [except] branch, [f"Error processing data: {str(e)}"]. *)
Inductive Message : Type :=
| Error_processing_data (e : Exception).

(** Computations that may raise. *)
Definition exc (A : Type) : Type := (Exception + A)%type.

Definition ret {A : Type} (a : A) : exc A := inr a.

Definition raise {A : Type} (e : Exception) : exc A := inl e.

Definition bind {A B : Type} (m : exc A) (k : A -> exc B) : exc B :=
  match m with
  | inl e => inl e
  | inr a => k a
  end.

Notation "x <- m ;; k" := (bind m (fun x => k))
  (at level 61, m at next level, right associativity).

Fixpoint index_of (col : pystr) (cols : list pystr) : option nat :=
  match cols with
  | [] => None
  | c :: cs => if pystr_eqb c col then Some O
               else option_map S (index_of col cs)
  end.

(** [col in df.columns]. *)
Definition in_columns (col : pystr) (df : DataFrame) : bool :=
  match index_of col (columns df) with Some _ => true | None => false end.

(** The cell of a row under the [j]-th header name; a short row reads as
    missing there. *)
Definition cell_at (j : nat) (row : list Cell) : Cell := nth j row CNull.

(** [df[col]]: the column, or [KeyError]. *)
Definition getitem (df : DataFrame) (col : pystr) : exc (list Cell) :=
  match index_of col (columns df) with
  | Some j => ret (map (cell_at j) (rows df))
  | None => raise (KeyError col)
  end.

(** [strftime('%Y-%m-%d')]. *)
Definition decimal (n : N) : pystr :=
  py (NilEmpty.string_of_uint (N.to_uint n)).

Definition zfill (width : nat) (s : pystr) : pystr :=
  repeat 48%N (width - List.length s) ++ s.

Definition strftime (d : Date) : pystr :=
  zfill 4 (decimal (year d)) ++ py "-" ++ zfill 2 (decimal (month d))
  ++ py "-" ++ zfill 2 (decimal (day d)).

(** One row of [clean_df] with its index label; a date, a raw description
    or a category may be missing, a missing amount is [NaN]. *)
Record CleanRow : Type := mkCleanRow {
  index : nat;
  date : option pystr;
  raw_description : option pystr;
  description : pystr;
  amount : Number;
  category : option pystr
}.

(** One row of the returned frame,
    [clean_df[['date', 'description', 'amount', 'category']]]. *)
Record Transaction : Type := mkTransaction {
  t_index : nat;
  t_date : option pystr;
  t_description : pystr;
  t_amount : Number;
  t_category : option pystr
}.

Definition select (r : CleanRow) : Transaction :=
  mkTransaction (index r) (date r) (description r) (amount r) (category r).

Definition notna {A : Type} (x : option A) : bool :=
  match x with Some _ => true | None => false end.

Definition nonempty (s : pystr) : bool :=
  match s with [] => false | _ :: _ => true end.

(** The columns of [clean_df] put side by side, labelled from [i]. *)
Fixpoint frame (i : nat) (dates raws : list (option pystr))
    (descs : list pystr) (amounts : list Number)
    (cats : list (option pystr)) : list CleanRow :=
  match dates, raws, descs, amounts, cats with
  | d :: dates', r :: raws', s :: descs', a :: amounts', c :: cats' =>
      mkCleanRow i d r s a c :: frame (S i) dates' raws' descs' amounts' cats'
  | _, _, _, _, _ => []
  end.

(** The rows of a frame with their index labels, from [i]. *)
Fixpoint enumerate {A : Type} (i : nat) (l : list A) : list (nat * A) :=
  match l with
  | [] => []
  | x :: l' => (i, x) :: enumerate (S i) l'
  end.

(** ** What pandas does inside its calls *)

(** What [astype(str)] makes of a missing value: the text [nan] (pandas
    before 3), or a value that is still missing (pandas 3). *)
Inductive StrCast : Type :=
| Missing_to_nan_text
| Missing_kept.

(** The pandas the pipeline runs on.

    [to_datetime_value col c]: what [pd.to_datetime(col)] gives for the
    present cell [c] of the column [col], whose format it infers from the
    column: [Some (Some d)] a date, [Some None] [NaT] (a text such as
    [NaT] that reads as missing), [None] when the call raises on it.

    [to_numeric_value col s]: what [pd.to_numeric(col, errors='coerce')]
    gives for the text [s] of the column [col], whose dtype it settles
    from the column: a number, [NaN] when [s] is not numeric.

    Neither changes when the column is written twice over. *)
Record Pandas : Type := mkPandas {
  to_datetime_value : list Cell -> Cell -> option (option Date);
  to_numeric_value : list (option pystr) -> pystr -> Number;
  str_of_number : Number -> pystr;
  str_cast : StrCast;
  to_datetime_repeat :
    forall col c, to_datetime_value (col ++ col) c = to_datetime_value col c;
  to_numeric_repeat :
    forall col s, to_numeric_value (col ++ col) s = to_numeric_value col s
}.

(** ** The import pipeline *)

Section Pipeline.

Variable pd : Pandas.

(** [astype(str)] on a missing value. *)
Definition missing_str : option pystr :=
  match str_cast pd with
  | Missing_to_nan_text => Some (py "nan")
  | Missing_kept => None
  end.

(** [astype(str)] on one cell; [None] is a value that is still missing. A
    [NaN] is the missing value of a column of numbers. *)
Definition astype_str (c : Cell) : option pystr :=
  match c with
  | CNull => missing_str
  | CStr s => Some s
  | CNum x => if isna x then missing_str else Some (str_of_number pd x)
  end.

(** One cell of [pd.to_datetime(col)] with the default [errors='raise']: a
    missing value becomes [NaT], a value pandas cannot read raises. *)
Definition to_datetime_cell (col : list Cell) (c : Cell) : exc (option Date) :=
  match c with
  | CNull => ret None
  | _ => match to_datetime_value pd col c with
         | Some d => ret d
         | None => raise (DateParseError c)
         end
  end.

Fixpoint to_datetime_cells (col cells : list Cell)
    : exc (list (option Date)) :=
  match cells with
  | [] => ret []
  | c :: cells' =>
      d <- to_datetime_cell col c ;;
      ds <- to_datetime_cells col cells' ;;
      ret (d :: ds)
  end.

(** [pd.to_datetime(col)]. *)
Definition to_datetime (col : list Cell) : exc (list (option Date)) :=
  to_datetime_cells col col.

(** The four replacements and the trim on one text of the amount column. *)
Definition clean_amount_text (amounts : pystr) : pystr :=
  let amounts := replace 36%N [] amounts in
  let amounts := replace 44%N [] amounts in
  let amounts := replace 40%N (py "-") amounts in
  let amounts := replace 41%N [] amounts in
  strip amounts.

(** The text of an amount cell after [astype(str)] and the [.str] steps,
    which leave a missing value missing. *)
Definition clean_amount (c : Cell) : option pystr :=
  option_map clean_amount_text (astype_str c).

(** One value of [pd.to_numeric(amounts, errors='coerce')]. *)
Definition to_numeric (amounts : list (option pystr)) (text : option pystr)
    : Number :=
  match text with
  | Some s => to_numeric_value pd amounts s
  | None => Float PrimFloat.nan
  end.

(** One value of [pd.to_numeric(amounts, errors='coerce').abs()]. *)
Definition to_amount (amounts : list (option pystr)) (text : option pystr)
    : Number :=
  abs_number (to_numeric amounts text).

(** [bool(category_col)]. *)
Definition truthy (category_col : option pystr) : bool :=
  match category_col with
  | Some (_ :: _) => true
  | _ => false
  end.

(** The body of the [try] block up to the row filters. *)
Definition build_clean_df (df : DataFrame) (date_col desc_col amount_col : pystr)
    (category_col : option pystr) : exc (list CleanRow) :=
  dcol <- getitem df date_col ;;
  dts <- to_datetime dcol ;;
  let dates := map (option_map strftime) dts in
  scol <- getitem df desc_col ;;
  let raws := map astype_str scol in
  let descs := map clean_description raws in
  acol <- getitem df amount_col ;;
  let amounts := map clean_amount acol in
  let amounts := map (to_amount amounts) amounts in
  cats <- match category_col with
          | Some c =>
              if truthy category_col && in_columns c df then
                ccol <- getitem df c ;;
                ret (map (fun x => option_map strip (astype_str x)) ccol)
              else ret (repeat (Some (py "Uncategorized"))
                          (List.length (rows df)))
          | None => ret (repeat (Some (py "Uncategorized"))
                           (List.length (rows df)))
          end ;;
  ret (frame O dates raws descs amounts cats).

(** The three filters under [# Remove invalid rows]. *)
Definition remove_invalid_rows (clean_df : list CleanRow) : list CleanRow :=
  let clean_df :=
    filter (fun r => notna (date r) && negb (isna (amount r))) clean_df in
  let clean_df := filter (fun r => positive (amount r)) clean_df in
  filter (fun r => nonempty (description r)) clean_df.

(** [clean_transaction_data(df, date_col, desc_col, amount_col,
    category_col)]: the pair (frame, error message). *)
Definition clean_transaction_data (df : DataFrame)
    (date_col desc_col amount_col : pystr) (category_col : option pystr)
    : option (list Transaction) * option Message :=
  match build_clean_df df date_col desc_col amount_col category_col with
  | inr clean_df => (Some (map select (remove_invalid_rows clean_df)), None)
  | inl e => (None, Some (Error_processing_data e))
  end.

(** *** The pipeline read row by row

    What the column operations above compute for one source row; the
    properties below relate the two. *)

(** The cell of [row] under the header name [col]. *)
Definition cell (df : DataFrame) (col : pystr) (row : list Cell) : Cell :=
  match index_of col (columns df) with
  | Some j => cell_at j row
  | None => CNull
  end.

(** The cells of the table under the header name [col]. *)
Definition column (df : DataFrame) (col : pystr) : list Cell :=
  map (cell df col) (rows df).

(** The date [to_datetime] leaves for a cell of the date column when it
    does not raise. *)
Definition to_date (df : DataFrame) (date_col : pystr) (c : Cell)
    : option Date :=
  match c with
  | CNull => None
  | _ => match to_datetime_value pd (column df date_col) c with
         | Some d => d
         | None => None
         end
  end.

(** Cells of the date column on which [to_datetime] does not raise. *)
Definition parseable (df : DataFrame) (date_col : pystr) (c : Cell) : bool :=
  match c with
  | CNull => true
  | _ => notna (to_datetime_value pd (column df date_col) c)
  end.

(** The cleaned texts of the amount column. *)
Definition amount_texts (df : DataFrame) (amount_col : pystr)
    : list (option pystr) :=
  map clean_amount (column df amount_col).

Definition category_of (df : DataFrame) (category_col : option pystr)
    (row : list Cell) : option pystr :=
  match category_col with
  | Some c =>
      if truthy category_col && in_columns c df
      then option_map strip (astype_str (cell df c row))
      else Some (py "Uncategorized")
  | None => Some (py "Uncategorized")
  end.

Definition clean_row (df : DataFrame) (date_col desc_col amount_col : pystr)
    (category_col : option pystr) (ir : nat * list Cell) : CleanRow :=
  let raw := astype_str (cell df desc_col (snd ir)) in
  mkCleanRow (fst ir)
    (option_map strftime (to_date df date_col (cell df date_col (snd ir))))
    raw
    (clean_description raw)
    (to_amount (amount_texts df amount_col)
       (clean_amount (cell df amount_col (snd ir))))
    (category_of df category_col (snd ir)).

(** A row that passes the three filters. *)
Definition valid (r : CleanRow) : bool :=
  notna (date r) && negb (isna (amount r)) && positive (amount r)
  && nonempty (description r).

(** The record the pipeline emits for source row [i], when it keeps it. *)
Definition transaction_of (df : DataFrame) (date_col desc_col amount_col : pystr)
    (category_col : option pystr) (i : nat) (row : list Cell) : Transaction :=
  select (clean_row df date_col desc_col amount_col category_col (i, row)).

End Pipeline.

(** ** A sample pandas

    A small executable instance of [Pandas], used to run the pipeline on
    concrete tables. Dates: [MM/DD/YYYY] and [YYYY-MM-DD] texts, all read
    in the format of the first dated cell of the column, as pandas 2 reads
    them, of the years a nanosecond [Timestamp] spans whole; the empty
    text and the texts [NaT], [nat], [NAT], [nan], [NaN] and [NAN] read as
    a missing date. Numbers:
    decimal literals with an optional sign, and [inf]; a literal with a
    point is the nearest float; a column all of whose texts are integers of
    64 bits is an integer column, any other a float column. [str] of a
    float is the shortest decimal that reads back as the float, as Python
    prints it. *)

Module Sample.

Definition digit (c : char) : option N :=
  if ((48 <=? c) && (c <=? 57))%N then Some (c - 48)%N else None.

(** The leading digits of [s]: their value on top of [acc], how many there
    are on top of [n], and the rest of the text. *)
Fixpoint digits (acc : N) (n : nat) (s : pystr) : N * nat * pystr :=
  match s with
  | [] => (acc, n, [])
  | c :: s' =>
      match digit c with
      | Some d => digits (10 * acc + d)%N (S n) s'
      | None => (acc, n, s)
      end
  end.

(** A numeric literal without its sign: the digits read as one integer and,
    for a literal with a point, the number of digits after it. *)
Definition unsigned_literal (s : pystr) : option (N * option nat) :=
  let '(ip, n1, rest) := digits 0%N O s in
  match rest with
  | [] => if Nat.eqb n1 O then None else Some (ip, None)
  | c :: frac =>
      if (c =? 46)%N then
        let '(v, n2, rest') := digits ip O frac in
        match rest' with
        | [] => if Nat.eqb (n1 + n2) O then None else Some (v, Some n2)
        | _ :: _ => None
        end
      else None
  end.

Inductive Literal : Type :=
| Integer (z : Z)
| Decimal (negative : bool) (mantissa : N) (places : nat)
| Infinite (negative : bool)
| NotNumeric.

Definition signed (negative : bool) (s : pystr) : Literal :=
  if pystr_eqb s (py "inf") || pystr_eqb s (py "infinity")
  then Infinite negative
  else match unsigned_literal s with
       | Some (m, None) => Integer (if negative then - Z.of_N m else Z.of_N m)
       | Some (m, Some k) => Decimal negative m k
       | None => NotNumeric
       end.

Definition literal (s : pystr) : Literal :=
  match s with
  | [] => NotNumeric
  | c :: s' =>
      if (c =? 45)%N then signed true s'
      else if (c =? 43)%N then signed false s'
      else signed false s
  end.

(** The float nearest to [num / den], ties to even. *)
Definition float_of_ratio (negative : bool) (num den : BinNums.positive)
    : float :=
  SF2Prim (SFdiv FloatOps.prec FloatOps.emax
             (S754_finite negative num 0) (S754_finite false den 0)).

(** The float nearest to [mantissa / 10^places]: what the parser gives for
    a literal of at most fifteen digits. *)
Definition float_of_decimal (negative : bool) (mantissa : N) (places : nat)
    : float :=
  match mantissa with
  | N0 => if negative then PrimFloat.neg_zero else PrimFloat.zero
  | Npos m => float_of_ratio negative m (Z.to_pos (10 ^ Z.of_nat places))
  end.

Definition float_of_integer (z : Z) : float :=
  float_of_decimal (z <? 0)%Z (Z.abs_N z) O.

Definition int64 (z : Z) : bool :=
  ((-9223372036854775808 <=? z) && (z <=? 9223372036854775807))%Z.

Definition uint64 (z : Z) : bool :=
  ((0 <=? z) && (z <=? 18446744073709551615))%Z.

Definition integers_within (range : Z -> bool) (col : list (option pystr))
    : bool :=
  forallb (fun t => match t with
                    | Some s => match literal s with
                                | Integer z => range z
                                | _ => false
                                end
                    | None => false
                    end) col.

(** A column all of whose texts are integer literals that fit one 64-bit
    integer type. *)
Definition integer_column (col : list (option pystr)) : bool :=
  integers_within int64 col || integers_within uint64 col.

Definition to_numeric_value (col : list (option pystr)) (s : pystr) : Number :=
  match literal s with
  | Integer z => if integer_column col then Int z
                 else Float (float_of_integer z)
  | Decimal negative m k => Float (float_of_decimal negative m k)
  | Infinite negative =>
      Float (if negative then PrimFloat.neg_infinity else PrimFloat.infinity)
  | NotNumeric => Float PrimFloat.nan
  end.

Definition number_of (ds : list char) : option N :=
  match digits 0%N O ds with
  | (v, n, []) => if Nat.eqb n (List.length ds) then Some v else None
  | _ => None
  end.

Definition leap_year (y : N) : bool :=
  ((y mod 4 =? 0) && (negb (y mod 100 =? 0) || (y mod 400 =? 0)))%N.

Definition days_in_month (y m : N) : N :=
  if (m =? 2)%N then (if leap_year y then 29 else 28)%N
  else if ((m =? 4) || (m =? 6) || (m =? 9) || (m =? 11))%N then 30%N
  else 31%N.

Definition make_date (y m d : list char) : option Date :=
  match number_of y, number_of m, number_of d with
  | Some y', Some m', Some d' =>
      if ((1678 <=? y') && (y' <=? 2261) && (1 <=? m') && (m' <=? 12)
          && (1 <=? d') && (d' <=? days_in_month y' m'))%N
      then Some (mkDate y' m' d') else None
  | _, _, _ => None
  end.

Definition parse_date_text (s : pystr) : option Date :=
  match s with
  | [a; b; s1; c; d; s2; e; f; g; h] =>
      if ((s1 =? 47) && (s2 =? 47))%N then make_date [e; f; g; h] [a; b] [c; d]
      else None
  | _ => None
  end.

Definition parse_iso_text (s : pystr) : option Date :=
  match s with
  | [a; b; c; d; s1; e; f; s2; g; h] =>
      if ((s1 =? 45) && (s2 =? 45))%N then make_date [a; b; c; d] [e; f] [g; h]
      else None
  | _ => None
  end.

(** Texts [pd.to_datetime] reads as a missing date. *)
Definition null_like (s : pystr) : bool :=
  pystr_eqb s []
  || existsb (pystr_eqb s)
       [py "NaT"; py "nat"; py "NAT"; py "nan"; py "NaN"; py "NAN"].

Inductive DateFormat : Type :=
| MonthDayYear
| YearMonthDay
| NoFormat.

(** The format read off one cell; none off a missing or null-like one. *)
Definition format_of (c : Cell) : option DateFormat :=
  match c with
  | CStr s =>
      if null_like s then None
      else match parse_date_text s, parse_iso_text s with
           | Some _, _ => Some MonthDayYear
           | None, Some _ => Some YearMonthDay
           | None, None => Some NoFormat
           end
  | _ => None
  end.

(** The format of the column: that of its first cell that has one. *)
Fixpoint guess_format (col : list Cell) : option DateFormat :=
  match col with
  | [] => None
  | c :: col' =>
      match format_of c with
      | Some f => Some f
      | None => guess_format col'
      end
  end.

(** Dates written as texts; the sample reads no date off a number. *)
Definition to_datetime_value (col : list Cell) (c : Cell)
    : option (option Date) :=
  match c with
  | CStr s =>
      if null_like s then Some None
      else match guess_format col with
           | Some MonthDayYear => option_map Some (parse_date_text s)
           | Some YearMonthDay => option_map Some (parse_iso_text s)
           | _ => match parse_date_text s with
                  | Some d => Some (Some d)
                  | None => option_map Some (parse_iso_text s)
                  end
           end
  | CNum x => if isna x then Some None else None
  | CNull => Some None
  end.

(** The exponent [k] with [10^k <= num / den < 10^(k+1)]. *)
Fixpoint magnitude (fuel : nat) (num den : Z) : Z :=
  match fuel with
  | O => 0
  | S fuel' =>
      if (num <? den)%Z then (magnitude fuel' (10 * num) den - 1)%Z
      else if (10 * den <=? num)%Z then (magnitude fuel' num (10 * den) + 1)%Z
      else 0%Z
  end.

(** [d * 10^q] without the zeros at the end of [d]. *)
Fixpoint shorten (fuel : nat) (d q : Z) : Z * Z :=
  match fuel with
  | O => (d, q)
  | S fuel' =>
      if (0 <? d)%Z && (d mod 10 =? 0)%Z then shorten fuel' (d / 10)%Z (q + 1)%Z
      else (d, q)
  end.

(** The float nearest to [d * 10^q], for [d > 0]. *)
Definition float_of_scaled (d q : Z) : float :=
  if (0 <=? q)%Z then float_of_ratio false (Z.to_pos (d * 10 ^ q)) 1
  else float_of_ratio false (Z.to_pos d) (Z.to_pos (10 ^ (- q))).

(** The decimal of [p] digits that reads back as [f = num / den], if there
    is one: the nearer of the two decimals of [p] digits around [f]. *)
Definition decimal_of_precision (f : float) (num den k : Z) (p : nat)
    : option (Z * Z) :=
  let q := (k - (Z.of_nat p - 1))%Z in
  let n := (if (q <? 0)%Z then num * 10 ^ (- q) else num)%Z in
  let d := (if (q <? 0)%Z then den else den * 10 ^ q)%Z in
  let lo := (n / d)%Z in
  let r := (n mod d)%Z in
  let reads_back x := (0 <? x)%Z && PrimFloat.eqb (float_of_scaled x q) f in
  if (r =? 0)%Z then Some (lo, q)
  else
    let hi := (lo + 1)%Z in
    match reads_back lo, reads_back hi with
    | true, true =>
        if (2 * r <? d)%Z || ((2 * r =? d)%Z && Z.even lo) then Some (lo, q)
        else Some (hi, q)
    | true, false => Some (lo, q)
    | false, true => Some (hi, q)
    | false, false => None
    end.

(** The shortest decimal that reads back as [f], trying [p] digits and
    then more. *)
Fixpoint shortest_decimal (f : float) (num den k : Z) (p more : nat)
    : Z * Z :=
  match decimal_of_precision f num den k p, more with
  | Some x, _ => x
  | None, S more' => shortest_decimal f num den k (S p) more'
  | None, O => (0, 0)%Z
  end.

(** [repr] of a float that is finite and greater than zero, [num / den]:
    the digits of its shortest decimal, with a point, or with an exponent
    when the point would be far from them. *)
Definition repr_positive (f : float) (num den : Z) : pystr :=
  let k := magnitude 400 num den in
  let '(d, q) := shortest_decimal f num den k 1 16 in
  let '(d, q) := shorten 20 d q in
  let ds := decimal (Z.to_N d) in
  let n := Z.of_nat (List.length ds) in
  let decpt := (n + q)%Z in
  if ((decpt <=? -4) || (16 <? decpt))%Z then
    let e := (decpt - 1)%Z in
    firstn 1 ds
    ++ match skipn 1 ds with [] => [] | tl => py "." ++ tl end
    ++ py "e" ++ (if (e <? 0)%Z then py "-" else py "+")
    ++ zfill 2 (decimal (Z.abs_N e))
  else if (decpt <=? 0)%Z then
    py "0." ++ repeat 48%N (Z.to_nat (- decpt)) ++ ds
  else if (n <=? decpt)%Z then
    ds ++ repeat 48%N (Z.to_nat (decpt - n)) ++ py ".0"
  else
    firstn (Z.to_nat decpt) ds ++ py "." ++ skipn (Z.to_nat decpt) ds.

(** [str] of a number. *)
Definition str_of_number (x : Number) : pystr :=
  match x with
  | Int z =>
      if (z <? 0)%Z then py "-" ++ decimal (Z.abs_N z) else decimal (Z.to_N z)
  | Float f =>
      match Prim2SF f with
      | S754_zero s => if s then py "-0.0" else py "0.0"
      | S754_infinity s => if s then py "-inf" else py "inf"
      | S754_nan => py "nan"
      | S754_finite s m e =>
          (if s then py "-" else [])
          ++ (if (0 <=? e)%Z
              then repr_positive (PrimFloat.abs f) (Zpos m * 2 ^ e) 1
              else repr_positive (PrimFloat.abs f) (Zpos m) (2 ^ (- e)))
      end
  end.

(** The sample pandas with a given string cast; neither parser changes
    when the column is written twice over, since the format of a date
    column is that of its first dated cell and a column of numbers is an
    integer column when all its texts are integers. *)
Definition pandas (cast : StrCast) : Pandas.
Proof.
  refine (mkPandas to_datetime_value to_numeric_value str_of_number cast _ _).
  - intros col c. unfold to_datetime_value.
    assert (E : forall a b,
              guess_format (a ++ b)
              = match guess_format a with
                | Some f => Some f
                | None => guess_format b
                end).
    { induction a as [|x a IH]; intros b; simpl; [reflexivity|].
      destruct (format_of x); [reflexivity | apply IH]. }
    rewrite E. now destruct (guess_format col).
  - intros col s.
    unfold to_numeric_value, integer_column, integers_within.
    rewrite !forallb_app. now rewrite !andb_diag.
Defined.

(** [astype(str)] as before pandas 3, and as in pandas 3. *)
Definition pandas2 : Pandas := pandas Missing_to_nan_text.

Definition pandas3 : Pandas := pandas Missing_kept.

Definition ingest : DataFrame -> pystr -> pystr -> pystr -> option pystr ->
    option (list Transaction) * option Message :=
  clean_transaction_data pandas2.

Definition ingest3 : DataFrame -> pystr -> pystr -> pystr -> option pystr ->
    option (list Transaction) * option Message :=
  clean_transaction_data pandas3.


(** The end-to-end table of the specification. *)
Definition statement : DataFrame :=
  mkDataFrame [py "date"; py "desc"; py "amt"]
    [ [CStr (py "01/15/2024"); CStr (py "TST*JOES DINER"); CStr (py "$23.45")];
      [CStr (py "bad-date"); CStr (py "X"); CStr (py "$5")];
      [CStr (py "01/16/2024"); CStr (py "POS WALMART"); CStr (py "(10.00)")] ].

(** The same table without its unparseable date. *)
Definition statement_ok : DataFrame :=
  mkDataFrame [py "date"; py "desc"; py "amt"]
    [ [CStr (py "01/15/2024"); CStr (py "TST*JOES DINER"); CStr (py "$23.45")];
      [CStr (py "01/16/2024"); CStr (py "POS WALMART"); CStr (py "(10.00)")] ].

(** A row whose description is only a prefix. *)
Definition only_prefix : DataFrame :=
  mkDataFrame [py "date"; py "desc"; py "amt"]
    [ [CStr (py "01/15/2024"); CStr (py "TST*JOES DINER"); CStr (py "$23.45")];
      [CStr (py "01/16/2024"); CStr (py "POS"); CStr (py "$5")] ].

(** Every amount is the text [abc]; one date does not parse. *)
Definition all_abc : DataFrame :=
  mkDataFrame [py "date"; py "desc"; py "amt"]
    [ [CStr (py "01/15/2024"); CStr (py "X"); CStr (py "abc")];
      [CStr (py "bad-date"); CStr (py "Y"); CStr (py "abc")] ].

(** Every amount is the text [abc]; every date parses. *)
Definition all_abc_dated : DataFrame :=
  mkDataFrame [py "date"; py "desc"; py "amt"]
    [ [CStr (py "01/15/2024"); CStr (py "X"); CStr (py "abc")];
      [CStr (py "01/16/2024"); CStr (py "Y"); CStr (py "abc")] ].

(** A category column with a blank cell and a missing cell. *)
Definition blank_category : DataFrame :=
  mkDataFrame [py "date"; py "desc"; py "amt"; py "cat"]
    [ [CStr (py "01/15/2024"); CStr (py "COFFEE"); CStr (py "$3"); CStr (py "  ")];
      [CStr (py "01/16/2024"); CStr (py "TEA"); CStr (py "$2"); CNull] ].

(** A missing description cell. *)
Definition missing_description : DataFrame :=
  mkDataFrame [py "date"; py "desc"; py "amt"]
    [ [CStr (py "01/15/2024"); CNull; CStr (py "$23.45")];
      [CStr (py "01/16/2024"); CStr (py "POS WALMART"); CStr (py "(10.00)")] ].

(** Dates in two formats and a date that reads as missing. *)
Definition mixed_dates : DataFrame :=
  mkDataFrame [py "date"; py "desc"; py "amt"]
    [ [CStr (py "01/15/2024"); CStr (py "COFFEE"); CStr (py "$3")];
      [CStr (py "2024-01-16"); CStr (py "TEA"); CStr (py "$2")] ].

Definition null_like_date : DataFrame :=
  mkDataFrame [py "date"; py "desc"; py "amt"]
    [ [CStr (py "01/15/2024"); CStr (py "COFFEE"); CStr (py "$3")];
      [CStr (py "NaT"); CStr (py "TEA"); CStr (py "$2")] ].

(** An amount column read as numbers by the file reader. *)
Definition numeric_amounts : DataFrame :=
  mkDataFrame [py "date"; py "desc"; py "amt"]
    [ [CStr (py "01/15/2024"); CStr (py "COFFEE"); CNum (Float 12.5%float)];
      [CStr (py "01/16/2024"); CStr (py "REFUND"); CNum (Float (-45)%float)];
      [CStr (py "01/17/2024"); CStr (py "VOID"); CNum (Float 0%float)];
      [CStr (py "01/18/2024"); CStr (py "LOST"); CNull] ].

End Sample.

(** ** File upload: [parse_uploaded_file] *)

(** [s.endswith(suffix)]. *)
Definition endswith (s suffix : pystr) : bool :=
  (List.length suffix <=? List.length s)%nat
  && pystr_eqb (skipn (List.length s - List.length suffix) s) suffix.

(** An uploaded file: its name and its bytes. *)
Record UploadedFile : Type := mkUploadedFile {
  name : pystr;
  content : list N
}.

Inductive UploadMessage : Type :=
| Please_upload_a_CSV_or_Excel_file
| Error_reading_file (e : pystr).

Section Upload.

(** [pd.read_csv] and [pd.read_excel]: the frame, or the text of the
    exception they raise. *)
Variable read_csv : UploadedFile -> pystr + DataFrame.
Variable read_excel : UploadedFile -> pystr + DataFrame.

Definition parse_uploaded_file (uploaded_file : UploadedFile)
    : option DataFrame * option UploadMessage :=
  if endswith (name uploaded_file) (py ".csv") then
    match read_csv uploaded_file with
    | inr df => (Some df, None)
    | inl e => (None, Some (Error_reading_file e))
    end
  else if endswith (name uploaded_file) (py ".xlsx")
          || endswith (name uploaded_file) (py ".xls") then
    match read_excel uploaded_file with
    | inr df => (Some df, None)
    | inl e => (None, Some (Error_reading_file e))
    end
  else (None, Some Please_upload_a_CSV_or_Excel_file).

End Upload.

(** ** The store: tables with an [AUTOINCREMENT] key *)

Module Db.

Inductive DbError : Type :=
| IntegrityError (column : pystr)
| OverflowError
| DatabaseFull.

(** The largest rowid, [2^63 - 1]. *)
Definition max_rowid : Z := 9223372036854775807%Z.

(** A table: its rows in rowid order, each with its [id], and the largest
    id the table has ever held (its entry in [sqlite_sequence]). *)
Record Table (R : Type) : Type := mkTable {
  records : list (Z * R);
  seq : Z
}.

Arguments mkTable {R} _ _.
Arguments records {R} _.
Arguments seq {R} _.

Definition ids {R : Type} (t : Table R) : list Z := map fst (records t).

Definition empty {R : Type} : Table R := mkTable [] 0%Z.

(** The id [AUTOINCREMENT] gives the next row: one more than the largest
    id ever held. *)
Definition next_rowid {R : Type} (t : Table R) : Z :=
  (fold_right Z.max (seq t) (ids t) + 1)%Z.

(** [INSERT INTO table (...) VALUES (...)]. *)
Definition insert {R : Type} (t : Table R) (r : R) : DbError + Table R :=
  let i := next_rowid t in
  if (i <=? max_rowid)%Z then inr (mkTable (records t ++ [(i, r)]) i)
  else inl DatabaseFull.

(** Whether [WHERE id = ?] selects a row. *)
Definition selects {R : Type} (t : Table R) (i : Z) : bool :=
  existsb (Z.eqb i) (ids t).

(** [UPDATE table SET ... WHERE id = ?]. *)
Definition update {R : Type} (t : Table R) (i : Z) (set : R -> R) : Table R :=
  mkTable (map (fun p => if (fst p =? i)%Z then (fst p, set (snd p)) else p)
               (records t))
          (seq t).

(** [DELETE FROM table WHERE id = ?]. *)
Definition delete {R : Type} (t : Table R) (i : Z) : Table R :=
  mkTable (filter (fun p => negb (fst p =? i)%Z) (records t)) (seq t).

(** [DELETE FROM table]. *)
Definition delete_all {R : Type} (t : Table R) : Table R :=
  mkTable [] (seq t).

(** [SELECT ... WHERE id = ?]. *)
Definition lookup {R : Type} (t : Table R) (i : Z) : option R :=
  option_map snd (find (fun p => (fst p =? i)%Z) (records t)).

(** The columns of [transactions] after [id]. *)
Record TransactionRow : Type := mkTransactionRow {
  tx_date : pystr;
  tx_description : pystr;
  tx_amount : float;
  tx_category : pystr;
  tx_created_at : pystr
}.

(** The columns of [net_worth_items] after [id]; [notes] may be null. *)
Record NetWorthRow : Type := mkNetWorthRow {
  nw_item_type : pystr;
  nw_name : pystr;
  nw_category : pystr;
  nw_amount : float;
  nw_notes : option pystr;
  nw_created_at : pystr;
  nw_updated_at : pystr
}.

Record Database : Type := mkDatabase {
  transactions : Table TransactionRow;
  net_worth_items : Table NetWorthRow
}.

(** [init_database()]: [CREATE TABLE IF NOT EXISTS] makes the two tables of
    a new file and leaves those of an existing one. *)
Definition init_database (file : option Database) : Database :=
  match file with
  | Some db => db
  | None => mkDatabase empty empty
  end.

(** A value bound to a [NOT NULL] column ([None] binds as [NULL]). *)
Definition not_null {A : Type} (column : pystr) (v : option A) : DbError + A :=
  match v with
  | Some a => inr a
  | None => inl (IntegrityError column)
  end.

Definition dbind {A B : Type} (m : DbError + A) (k : A -> DbError + B)
    : DbError + B :=
  match m with
  | inl e => inl e
  | inr a => k a
  end.

Notation "x <~ m ;; k" := (dbind m (fun x => k))
  (at level 61, m at next level, right associativity).

(** The float a [REAL] column holds for an integer. *)
Definition real_of_integer (z : Z) : float :=
  if (z =? -9223372036854775808)%Z then PrimFloat.opp 9223372036854775808%float
  else if (z <? 0)%Z
       then PrimFloat.opp (PrimFloat.of_uint63 (Uint63.of_Z (- z)))
       else PrimFloat.of_uint63 (Uint63.of_Z z).

(** Numbers [sqlite3] can bind and a [NOT NULL] column can hold: floats
    other than [NaN], and integers of 64 bits. *)
Definition storable (x : Number) : bool :=
  match x with
  | Float f => negb (PrimFloat.is_nan f)
  | Int z => (-9223372036854775808 <=? z)%Z && (z <=? 9223372036854775807)%Z
  end.

(** The value a [REAL] column holds for a number. *)
Definition stored_real (x : Number) : float :=
  match x with
  | Float f => f
  | Int z => real_of_integer z
  end.

(** [sqlite3] binding a number: an integer beyond 64 bits is refused, a
    [NaN] binds as [NULL]. *)
Definition bind_number (v : option Number) : DbError + option float :=
  match v with
  | None => inr None
  | Some (Float f) => inr (if PrimFloat.is_nan f then None else Some f)
  | Some (Int z) =>
      if storable (Int z) then inr (Some (real_of_integer z))
      else inl OverflowError
  end.

(** [add_transaction(date, description, amount, category)]; [now] is
    [CURRENT_TIMESTAMP] when the statement runs. *)
Definition add_transaction (now : pystr) (db : Database)
    (date description : option pystr) (amount : option Number)
    (category : option pystr) : DbError + Database :=
  amount <~ bind_number amount ;;
  d <~ not_null (py "transactions.date") date ;;
  s <~ not_null (py "transactions.description") description ;;
  a <~ not_null (py "transactions.amount") amount ;;
  c <~ not_null (py "transactions.category") category ;;
  t <~ insert (transactions db) (mkTransactionRow d s a c now) ;;
  inr (mkDatabase t (net_worth_items db)).

(** [update_transaction(transaction_id, date, description, amount,
    category)]; the constraints are checked only when a row is selected. *)
Definition update_transaction (db : Database) (transaction_id : Z)
    (date description : option pystr) (amount : option Number)
    (category : option pystr) : DbError + Database :=
  amount <~ bind_number amount ;;
  if selects (transactions db) transaction_id then
    d <~ not_null (py "transactions.date") date ;;
    s <~ not_null (py "transactions.description") description ;;
    a <~ not_null (py "transactions.amount") amount ;;
    c <~ not_null (py "transactions.category") category ;;
    inr (mkDatabase
           (update (transactions db) transaction_id
              (fun r => mkTransactionRow d s a c (tx_created_at r)))
           (net_worth_items db))
  else inr db.

(** [delete_transaction(transaction_id)]. *)
Definition delete_transaction (db : Database) (transaction_id : Z) : Database :=
  mkDatabase (delete (transactions db) transaction_id) (net_worth_items db).

(** [clear_all_transactions()]. *)
Definition clear_all_transactions (db : Database) : Database :=
  mkDatabase (delete_all (transactions db)) (net_worth_items db).

(** The loop of [add_bulk_transactions]: one [INSERT] per row of the
    frame, counting; [clock k] is [CURRENT_TIMESTAMP] at the [k]-th one. *)
Fixpoint bulk_loop (clock : nat -> pystr) (db : Database) (count : nat)
    (df : list Transaction) : DbError + (Database * nat) :=
  match df with
  | [] => inr (db, count)
  | row :: df' =>
      db' <~ add_transaction (clock count) db (t_date row)
               (Some (t_description row)) (Some (t_amount row))
               (t_category row) ;;
      bulk_loop clock db' (S count) df'
  end.

(** [add_bulk_transactions(df)]: the store after the commit and the count
    returned; an exception leaves before the commit. *)
Definition add_bulk_transactions (clock : nat -> pystr) (db : Database)
    (df : list Transaction) : DbError + (Database * nat) :=
  bulk_loop clock db O df.

(** [add_net_worth_item(item_type, name, category, amount, notes)]. *)
Definition add_net_worth_item (now : pystr) (db : Database)
    (item_type name category : option pystr) (amount : option Number)
    (notes : option pystr) : DbError + Database :=
  amount <~ bind_number amount ;;
  ty <~ not_null (py "net_worth_items.item_type") item_type ;;
  n <~ not_null (py "net_worth_items.name") name ;;
  c <~ not_null (py "net_worth_items.category") category ;;
  a <~ not_null (py "net_worth_items.amount") amount ;;
  t <~ insert (net_worth_items db) (mkNetWorthRow ty n c a notes now now) ;;
  inr (mkDatabase (transactions db) t).

(** [update_net_worth_item(item_id, name, category, amount, notes)]. *)
Definition update_net_worth_item (now : pystr) (db : Database) (item_id : Z)
    (name category : option pystr) (amount : option Number)
    (notes : option pystr) : DbError + Database :=
  amount <~ bind_number amount ;;
  if selects (net_worth_items db) item_id then
    n <~ not_null (py "net_worth_items.name") name ;;
    c <~ not_null (py "net_worth_items.category") category ;;
    a <~ not_null (py "net_worth_items.amount") amount ;;
    inr (mkDatabase (transactions db)
           (update (net_worth_items db) item_id
              (fun r => mkNetWorthRow (nw_item_type r) n c a notes
                          (nw_created_at r) now)))
  else inr db.

(** [delete_net_worth_item(item_id)]. *)
Definition delete_net_worth_item (db : Database) (item_id : Z) : Database :=
  mkDatabase (transactions db) (delete (net_worth_items db) item_id).

(** A table as the operations above keep it: ids positive, strictly
    increasing down the rows, and none above [seq]. *)
Definition well_formed {R : Type} (t : Table R) : Prop :=
  StronglySorted Z.lt (ids t)
  /\ Forall (fun i => (0 < i <= seq t)%Z) (ids t)
  /\ (0 <= seq t)%Z.

End Db.

(** ** Manual entry and edit *)

(** [a or b] on strings. *)
Definition or_else (a b : pystr) : pystr :=
  if nonempty a then a else b.

(** [clean_description(description) or description]. *)
Definition final_description (description : pystr) : pystr :=
  or_else (clean_description (Some description)) description.

(** [description and description.strip() and amount and amount > 0]; a
    float is true unless it equals zero. *)
Definition can_add (description : pystr) (amount : float) : bool :=
  nonempty description && nonempty (strip description)
  && negb (PrimFloat.eqb amount PrimFloat.zero)
  && PrimFloat.ltb PrimFloat.zero amount.

Inductive Notice : Type :=
| Added (final : pystr)
| Error_adding (e : Db.DbError)
| Please_enter_a_description_and_amount.

(** The handler of the [Add Transaction] button. *)
Definition add_single (now : pystr) (db : Db.Database) (transaction_date : Date)
    (description : pystr) (amount : float) (category : pystr)
    : Db.Database * Notice :=
  if can_add description amount then
    let final := final_description description in
    match Db.add_transaction now db (Some (strftime transaction_date))
            (Some final) (Some (Float amount)) (Some category) with
    | inr db' => (db', Added final)
    | inl e => (db, Error_adding e)
    end
  else (db, Please_enter_a_description_and_amount).

(** The handler of the [Save Changes] button of the edit form. *)
Definition save_changes (db : Db.Database) (edit_id : Z) (edit_date : Date)
    (edit_description : pystr) (edit_amount : float) (edit_category : pystr)
    : Db.DbError + Db.Database :=
  Db.update_transaction db edit_id (Some (strftime edit_date))
    (Some (final_description edit_description)) (Some (Float edit_amount))
    (Some edit_category).

(** ** Sample store and files *)

Module SampleStore.

(** The two records cleaned from [Sample.statement_ok]. *)
Definition diner : Transaction :=
  mkTransaction 0 (Some (py "2024-01-15")) (py "JOES DINER")
    (Float 23.45%float) (Some (py "Uncategorized")).

Definition walmart : Transaction :=
  mkTransaction 1 (Some (py "2024-01-16")) (py "WALMART")
    (Float 10%float) (Some (py "Uncategorized")).

Definition cleaned : list Transaction := [diner; walmart].

Definition clock (k : nat) : pystr := py "2024-02-01 09:00:00".

Definition new_store : Db.Database := Db.init_database None.

(** The store after [cleaned] is imported into a new one. *)
Definition imported : Db.Database :=
  Db.mkDatabase
    (Db.mkTable
       [ (1%Z, Db.mkTransactionRow (py "2024-01-15") (py "JOES DINER")
                 23.45%float (py "Uncategorized") (py "2024-02-01 09:00:00"));
         (2%Z, Db.mkTransactionRow (py "2024-01-16") (py "WALMART")
                 10%float (py "Uncategorized") (py "2024-02-01 09:00:00")) ]
       2%Z)
    Db.empty.

Definition read_csv (f : UploadedFile) : pystr + DataFrame :=
  inr Sample.statement_ok.

Definition read_excel (f : UploadedFile) : pystr + DataFrame :=
  inl (py "not a workbook").

End SampleStore.

(** ** Notions used to state the properties *)


(** The characters of a text that are not whitespace, in order. *)
Definition nonspace (s : pystr) : pystr :=
  filter (fun c => negb (is_space c)) s.

(** A record with its index label moved by [k]. *)
Definition shift_index (k : nat) (t : Transaction) : Transaction :=
  mkTransaction (k + t_index t) (t_date t) (t_description t) (t_amount t)
    (t_category t).

(** A stored row holds the values of a record of the frame. *)
Definition stores (t : Transaction) (r : Db.TransactionRow) : Prop :=
  t_date t = Some (Db.tx_date r)
  /\ t_description t = Db.tx_description r
  /\ Db.stored_real (t_amount t) = Db.tx_amount r
  /\ t_category t = Some (Db.tx_category r).

Definition db_well_formed (db : Db.Database) : Prop :=
  Db.well_formed (Db.transactions db)
  /\ Db.well_formed (Db.net_worth_items db).

(** What [notna] and [amount > 0] say of a number. *)
Definition greater_than_zero (x : Number) : Prop :=
  match x with
  | Int z => (0 < z)%Z
  | Float f => PrimFloat.ltb PrimFloat.zero f = true
               /\ PrimFloat.is_nan f = false
  end.

(** * Properties *)

Local Open Scope nat_scope.

(** ** Whitespace: [strip], [split] and [join] *)

Section Whitespace.

Lemma lstrip_length (s : pystr) : List.length (lstrip s) <= List.length s.
Proof.
  induction s as [|c s IH]; simpl; [lia|].
  destruct (is_space c); simpl; lia.
Qed.

Lemma lstrip_head (c : char) (s : pystr) :
  is_space c = false -> lstrip (c :: s) = c :: s.
Proof. intros H; simpl; now rewrite H. Qed.

Lemma join_cons (c : char) (w : pystr) (ws : list pystr) :
  join ((c :: w) :: ws) = c :: join (w :: ws).
Proof. destruct ws; reflexivity. Qed.

Lemma join_cons_app (w : pystr) (ws : list pystr) :
  join (w :: ws) = w ++ match ws with [] => [] | _ :: _ => 32%N :: join ws end.
Proof. destruct ws; simpl; [now rewrite app_nil_r | reflexivity]. Qed.

Lemma split_words (s : pystr) : Forall word (split s).
Proof.
  induction s as [|c s IH]; simpl; [constructor|].
  destruct (is_space c) eqn:Hc; [exact IH|].
  destruct s as [|d s']; [repeat constructor; [discriminate | exact Hc]|].
  destruct (is_space d) eqn:Hd.
  - constructor; [|exact IH].
    split; [discriminate | repeat constructor; exact Hc].
  - destruct (split (d :: s')) as [|w ws].
    + repeat constructor; [discriminate | exact Hc].
    + inversion IH as [|? ? [_ Hw] Hws]; subst.
      constructor; [|exact Hws].
      split; [discriminate | constructor; assumption].
Qed.

Lemma split_word_cons (w : pystr) (ws : list pystr) :
  word w -> split (w ++ 32%N :: join ws) = w :: split (join ws).
Proof.
  intros [Hne Hw].
  induction w as [|c w IH]; [contradiction|].
  inversion Hw as [|? ? Hc Hw']; subst.
  destruct w as [|d w'].
  - simpl. rewrite Hc. reflexivity.
  - inversion Hw' as [|? ? Hd _]; subst.
    change ((c :: d :: w') ++ 32%N :: join ws)
      with (c :: ((d :: w') ++ 32%N :: join ws)).
    assert (IH' := IH ltac:(discriminate) Hw').
    change (split (c :: (d :: w') ++ 32%N :: join ws))
      with (if is_space c then split ((d :: w') ++ 32%N :: join ws)
            else if is_space d then [c] :: split ((d :: w') ++ 32%N :: join ws)
            else match split ((d :: w') ++ 32%N :: join ws) with
                 | w0 :: ws0 => (c :: w0) :: ws0
                 | [] => [[c]]
                 end).
    rewrite Hc, Hd, IH'. reflexivity.
Qed.

Lemma split_one_word (w : pystr) : word w -> split w = [w].
Proof.
  intros [Hne Hw].
  induction w as [|c w IH]; [contradiction|].
  inversion Hw as [|? ? Hc Hw']; subst.
  destruct w as [|d w'].
  - simpl. now rewrite Hc.
  - inversion Hw' as [|? ? Hd _]; subst.
    assert (IH' := IH ltac:(discriminate) Hw').
    change (split (c :: d :: w'))
      with (if is_space c then split (d :: w')
            else if is_space d then [c] :: split (d :: w')
            else match split (d :: w') with
                 | w0 :: ws0 => (c :: w0) :: ws0
                 | [] => [[c]]
                 end).
    rewrite Hc, Hd, IH'. reflexivity.
Qed.

(** Splitting a joined list of words gives the words back. *)
Lemma split_join (ws : list pystr) : Forall word ws -> split (join ws) = ws.
Proof.
  induction ws as [|w ws IH]; intros H; [reflexivity|].
  inversion H as [|? ? Hw Hws]; subst.
  destruct ws as [|w' ws'].
  - simpl. now apply split_one_word.
  - change (join (w :: w' :: ws')) with (w ++ 32%N :: join (w' :: ws')).
    rewrite split_word_cons by exact Hw.
    now rewrite IH.
Qed.

(** Collapsing whitespace never lengthens the text, and drops a leading
    whitespace character. *)
Lemma join_split_length_lead (s : pystr) :
  List.length (join (split s))
  + match s with
    | c :: _ => if is_space c then 1 else 0
    | [] => 0
    end <= List.length s.
Proof.
  induction s as [|c s IH]; [simpl; lia|].
  cbn [split].
  destruct (is_space c) eqn:Hc.
  - cbn [List.length]. destruct s as [|d s']; [simpl; lia|].
    destruct (is_space d); lia.
  - destruct s as [|d s']; [simpl; lia|].
    destruct (is_space d) eqn:Hd.
    + rewrite join_cons_app. rewrite length_app.
      destruct (split (d :: s')); cbn [List.length] in *; lia.
    + destruct (split (d :: s')) as [|w ws].
      * cbn [join List.length]. lia.
      * rewrite join_cons. cbn [List.length] in *. lia.
Qed.

Lemma join_split_length (s : pystr) :
  List.length (join (split s)) <= List.length s.
Proof. pose proof (join_split_length_lead s). lia. Qed.

(** A joined list of words is empty or has non-whitespace at both ends. *)
Lemma join_words_first (ws : list pystr) :
  Forall word ws ->
  join ws = [] \/ exists c s, join ws = c :: s /\ is_space c = false.
Proof.
  intros H. destruct ws as [|w ws]; [now left|right].
  inversion H as [|? ? [Hne Hw] _]; subst.
  destruct w as [|c w]; [contradiction|].
  inversion Hw; subst.
  rewrite join_cons. eauto.
Qed.

Lemma join_words_last (ws : list pystr) :
  Forall word ws ->
  join ws = [] \/ exists s c, join ws = s ++ [c] /\ is_space c = false.
Proof.
  induction ws as [|w ws IH]; intros H; [now left|right].
  inversion H as [|? ? [Hne Hw] Hws]; subst.
  destruct ws as [|w' ws'].
  - simpl. destruct (exists_last Hne) as [s [c ->]].
    exists s, c. split; [reflexivity|].
    rewrite Forall_app in Hw. destruct Hw as [_ Hc]. now inversion Hc.
  - destruct (IH Hws) as [E | [s [c [E Hc]]]].
    + exfalso. inversion Hws as [|? ? [Hne' _] _]; subst.
      destruct w' as [|x w']; [contradiction|].
      rewrite join_cons in E. discriminate.
    + change (join (w :: w' :: ws')) with (w ++ 32%N :: join (w' :: ws')).
      rewrite E. exists (w ++ 32%N :: s), c.
      split; [|exact Hc].
      rewrite <- app_assoc. reflexivity.
Qed.

(** Trimming a joined list of words changes nothing. *)
Lemma strip_join (ws : list pystr) : Forall word ws -> strip (join ws) = join ws.
Proof.
  intros H. unfold strip, rstrip.
  destruct (join_words_first ws H) as [E | [c [s [E Hc]]]].
  - rewrite E. reflexivity.
  - rewrite E, (lstrip_head _ _ Hc), <- E.
    destruct (join_words_last ws H) as [E' | [s' [c' [E' Hc']]]].
    + rewrite E'. reflexivity.
    + rewrite E', rev_app_distr. simpl rev at 2. simpl app at 1.
      rewrite (lstrip_head _ _ Hc').
      change (c' :: rev s') with (rev [c'] ++ rev s').
      rewrite <- rev_app_distr, rev_involutive. reflexivity.
Qed.

End Whitespace.

(** ** The normalizer *)

Section Normalizer.

Lemma match_literal_length (pat text rest : pystr) :
  match_literal pat text = Some rest ->
  List.length text = List.length pat + List.length rest.
Proof.
  revert text. induction pat as [|p pat IH]; intros text H; simpl in *.
  - now inversion H.
  - destruct text as [|c text]; [discriminate|].
    destruct (literal_ignorecase p c); [|discriminate].
    simpl. now rewrite (IH _ H).
Qed.

Lemma sub_prefix_no_match (p x : pystr) :
  matches p x = false -> sub_prefix p x = x.
Proof.
  unfold matches, sub_prefix. now destruct (match_literal p x).
Qed.

Lemma sub_prefix_length (p x : pystr) :
  List.length (sub_prefix p x) <= List.length x.
Proof.
  unfold sub_prefix. destruct (match_literal p x) as [rest|] eqn:E; [|lia].
  pose proof (match_literal_length _ _ _ E).
  pose proof (lstrip_length rest). lia.
Qed.

Lemma sub_prefix_shorter (p x : pystr) :
  p <> [] -> matches p x = true ->
  List.length (sub_prefix p x) < List.length x.
Proof.
  unfold matches, sub_prefix. intros Hp H.
  destruct (match_literal p x) as [rest|] eqn:E; [|discriminate].
  pose proof (match_literal_length _ _ _ E).
  pose proof (lstrip_length rest).
  destruct p; [contradiction | simpl in *; lia].
Qed.

Lemma remove_prefixes_length (ps : list pystr) (x : pystr) :
  List.length (remove_prefixes ps x) <= List.length x.
Proof.
  unfold remove_prefixes. revert x.
  induction ps as [|p ps IH]; intros x; simpl; [lia|].
  pose proof (IH (sub_prefix p x)). pose proof (sub_prefix_length p x). lia.
Qed.

Lemma remove_prefixes_no_match (ps : list pystr) (x : pystr) :
  starts_with_prefix ps x = false -> remove_prefixes ps x = x.
Proof.
  unfold remove_prefixes, starts_with_prefix.
  induction ps as [|p ps IH]; simpl; intros H; [reflexivity|].
  apply orb_false_iff in H. destruct H as [Hp Hps].
  rewrite (sub_prefix_no_match _ _ Hp). now apply IH.
Qed.

Lemma remove_prefixes_shorter (ps : list pystr) (x : pystr) :
  Forall (fun p => p <> []) ps -> starts_with_prefix ps x = true ->
  List.length (remove_prefixes ps x) < List.length x.
Proof.
  unfold starts_with_prefix. intros Hne.
  induction Hne as [|p ps Hp _ IH]; simpl; intros H; [discriminate|].
  destruct (matches p x) eqn:Hm.
  - pose proof (sub_prefix_shorter _ _ Hp Hm).
    pose proof (remove_prefixes_length ps (sub_prefix p x)).
    unfold remove_prefixes in *. simpl. lia.
  - unfold remove_prefixes in *. simpl.
    rewrite (sub_prefix_no_match _ _ Hm). now apply IH.
Qed.

(** The loop is the first matching removal followed by the loop over the
    patterns listed after it. *)
Lemma remove_prefixes_first (ps : list pystr) (x : pystr) :
  remove_prefixes ps x
  = remove_prefixes (later_prefixes ps x) (remove_first_match ps x).
Proof.
  unfold remove_prefixes.
  induction ps as [|p ps IH]; simpl; [reflexivity|].
  destruct (matches p x) eqn:Hm; [reflexivity|].
  now rewrite (sub_prefix_no_match _ _ Hm).
Qed.

Lemma normalize_eq (s : pystr) :
  normalize s = join (split (remove_prefixes prefixes_to_remove (strip s))).
Proof. destruct s; reflexivity. Qed.

Lemma prefixes_nonempty : Forall (fun p : pystr => p <> []) prefixes_to_remove.
Proof. repeat constructor; discriminate. Qed.

(** The result of the normalizer is a joined list of words. *)
Lemma normalize_words (s : pystr) :
  exists ws, Forall word ws /\ normalize s = join ws.
Proof.
  rewrite normalize_eq. eexists. split; [apply split_words | reflexivity].
Qed.

Example normalize_lakewood :
  normalize (py "TST*LAKEWOOD TRUCK PA") = py "LAKEWOOD TRUCK PA".
Proof. reflexivity. Qed.

Example normalize_coffee :
  normalize (py "  SQ *   Coffee  Shop ") = py "Coffee Shop".
Proof. reflexivity. Qed.

Example normalize_empty : normalize [] = [].
Proof. reflexivity. Qed.

(** C2, as stated, fails: [POS TST*X] cleans to [TST*X], which cleans
    to [X]. *)
Lemma normalize_not_idempotent :
  normalize (py "POS TST*X") = py "TST*X"
  /\ normalize (normalize (py "POS TST*X")) = py "X"
  /\ normalize (normalize (py "POS TST*X")) <> normalize (py "POS TST*X").
Proof. repeat split; vm_compute; discriminate. Qed.

(** C2 (amended): a second application of the normalizer changes nothing
    exactly when the first result begins with none of the seven prefix
    patterns. *)
Theorem normalize_idempotent_iff (s : pystr) :
  normalize (normalize s) = normalize s
  <-> starts_with_prefix prefixes_to_remove (normalize s) = false.
Proof.
  destruct (normalize_words s) as [ws [Hws E]].
  rewrite (normalize_eq (normalize s)), E, (strip_join _ Hws).
  split.
  - intros H.
    destruct (starts_with_prefix prefixes_to_remove (join ws)) eqn:Hm;
      [exfalso | reflexivity].
    pose proof (remove_prefixes_shorter _ _ prefixes_nonempty Hm) as Hlt.
    pose proof (join_split_length
                  (remove_prefixes prefixes_to_remove (join ws))) as Hle.
    rewrite H in Hle. lia.
  - intros H. rewrite (remove_prefixes_no_match _ _ H).
    now rewrite (split_join _ Hws).
Qed.

(** C3, as stated, fails: both [TST*] and [POS] are removed in one call. *)
Lemma normalize_removes_two_prefixes :
  normalize (py "TST*POS WALMART") = py "WALMART"
  /\ normalize_first_match_only (py "TST*POS WALMART") = py "POS WALMART"
  /\ normalize (py "TST*POS WALMART")
     <> normalize_first_match_only (py "TST*POS WALMART").
Proof. repeat split; vm_compute; discriminate. Qed.

(** C3 (amended): after the first matching pattern is removed, every
    pattern listed after it is still tried, once and in list order, on the
    remaining text; the result is that of first-match-only removal whenever
    no later pattern matches that remaining text. *)
Theorem normalize_tries_later_prefixes (s : pystr) :
  normalize s
  = join (split (remove_prefixes
                   (later_prefixes prefixes_to_remove (strip s))
                   (remove_first_match prefixes_to_remove (strip s))))
  /\ (starts_with_prefix (later_prefixes prefixes_to_remove (strip s))
        (remove_first_match prefixes_to_remove (strip s)) = false ->
      normalize s = normalize_first_match_only s).
Proof.
  split.
  - now rewrite normalize_eq, remove_prefixes_first.
  - intros H. rewrite normalize_eq, remove_prefixes_first.
    rewrite (remove_prefixes_no_match _ _ H).
    destruct s; reflexivity.
Qed.

Lemma normalize_tries_later_prefixes_witness :
  normalize (py "POS TST*X") = normalize_first_match_only (py "POS TST*X").
Proof.
  apply (normalize_tries_later_prefixes (py "POS TST*X")).
  reflexivity.
Defined.

End Normalizer.

(** ** The pipeline, row by row *)

Section Enumerate.

Context {A : Type}.

Lemma enumerate_In (k i : nat) (x : A) (l : list A) :
  In (i, x) (enumerate k l) <-> k <= i /\ nth_error l (i - k) = Some x.
Proof.
  revert k. induction l as [|y l IH]; intros k; simpl.
  - split; [contradiction | intros [_ H]; destruct (i - k); discriminate].
  - rewrite IH. split.
    + intros [E | [Hle H]].
      * inversion E; subst. rewrite Nat.sub_diag. split; [lia | reflexivity].
      * split; [lia|]. replace (i - k) with (S (i - S k)) by lia. exact H.
    + intros [Hle H]. destruct (i - k) as [|n] eqn:E.
      * left. inversion H; subst. f_equal. lia.
      * right. split; [lia|]. replace (i - S k) with n by lia. exact H.
Qed.

Lemma enumerate_length (k : nat) (l : list A) :
  List.length (enumerate k l) = List.length l.
Proof. revert k. induction l; intros k; simpl; [|rewrite IHl]; reflexivity. Qed.

Lemma enumerate_fst (k : nat) (l : list A) :
  map fst (enumerate k l) = seq k (List.length l).
Proof. revert k. induction l; intros k; simpl; [|rewrite IHl]; reflexivity. Qed.

End Enumerate.

Lemma seq_sorted (k n : nat) : StronglySorted lt (seq k n).
Proof.
  revert k. induction n as [|n IH]; intros k; simpl; constructor.
  - apply IH.
  - apply Forall_forall. intros x Hx. apply in_seq in Hx. lia.
Qed.

Lemma filter_sorted {A : Type} (key : A -> nat) (f : A -> bool) (l : list A) :
  StronglySorted lt (map key l) -> StronglySorted lt (map key (filter f l)).
Proof.
  induction l as [|x l IH]; simpl; intros H; [constructor|].
  inversion H as [|? ? Hs Hall]; subst.
  destruct (f x); simpl; [|now apply IH].
  constructor; [now apply IH|].
  rewrite Forall_forall in *. intros y Hy.
  apply Hall. apply in_map_iff in Hy. destruct Hy as [z [<- Hz]].
  apply in_map. apply filter_In in Hz. tauto.
Qed.

Lemma filter_filter {A : Type} (f g : A -> bool) (l : list A) :
  filter g (filter f l) = filter (fun x => f x && g x) l.
Proof.
  induction l as [|x l IH]; simpl; [reflexivity|].
  destruct (f x); simpl; [destruct (g x)|]; now rewrite IH.
Qed.

Lemma index_of_in_columns (col : pystr) (df : DataFrame) :
  in_columns col df = true <-> exists j, index_of col (columns df) = Some j.
Proof.
  unfold in_columns. destruct (index_of col (columns df)); split; eauto;
    [discriminate | intros [? ?]; discriminate].
Qed.

Section PipelineFacts.

Variable pd : Pandas.

Local Abbreviation to_datetime_cells := (to_datetime_cells pd).
Local Abbreviation to_datetime := (to_datetime pd).
Local Abbreviation parseable := (parseable pd).
Local Abbreviation to_date := (to_date pd).
Local Abbreviation astype_str := (astype_str pd).
Local Abbreviation clean_amount := (clean_amount pd).
Local Abbreviation amount_texts := (amount_texts pd).
Local Abbreviation to_amount := (to_amount pd).
Local Abbreviation clean_row := (clean_row pd).
Local Abbreviation build_clean_df := (build_clean_df pd).
Local Abbreviation clean_transaction_data := (clean_transaction_data pd).
Local Abbreviation transaction_of := (transaction_of pd).
Local Abbreviation category_of := (category_of pd).

Lemma to_datetime_cells_ok (df : DataFrame) (d : pystr) (cells : list Cell) :
  forallb (parseable df d) cells = true ->
  to_datetime_cells (column df d) cells = inr (map (to_date df d) cells).
Proof.
  induction cells as [|c cells IH]; simpl; intros H; [reflexivity|].
  apply andb_true_iff in H. destruct H as [Hc Hcells].
  rewrite (IH Hcells).
  destruct c; simpl in *; try reflexivity;
    match goal with
    | |- context [to_datetime_value pd ?l ?c] =>
        destruct (to_datetime_value pd l c)
    end; simpl in *; try discriminate; reflexivity.
Qed.

Lemma to_datetime_cells_raises (df : DataFrame) (d : pystr)
    (cells : list Cell) :
  forallb (parseable df d) cells = false ->
  exists c, In c cells /\ c <> CNull
            /\ to_datetime_value pd (column df d) c = None
            /\ to_datetime_cells (column df d) cells
               = inl (DateParseError c).
Proof.
  induction cells as [|c cells IH]; simpl; intros H; [discriminate|].
  destruct (parseable df d c) eqn:Hc; simpl in H.
  - destruct (IH H) as [c' [Hin [Hn [Hp E]]]].
    exists c'. split; [now right | split; [exact Hn | split; [exact Hp |]]].
    rewrite E.
    destruct c; simpl in *; try reflexivity;
      match goal with
      | |- context [to_datetime_value pd ?l ?c] =>
          destruct (to_datetime_value pd l c)
      end; simpl in *; try discriminate; reflexivity.
  - exists c.
    assert (Hn : c <> CNull) by (intros ->; discriminate).
    assert (Hp : to_datetime_value pd (column df d) c = None).
    { destruct c; simpl in Hc; try discriminate;
        destruct (to_datetime_value pd _ _); (discriminate || reflexivity). }
    split; [now left | split; [exact Hn | split; [exact Hp |]]].
    destruct c; [contradiction| |]; simpl; rewrite Hp; reflexivity.
Qed.

Lemma frame_map {R : Type} (i : nat) (l : list R)
    (fd fr : R -> option pystr) (fs : R -> pystr) (fa : R -> Number)
    (fc : R -> option pystr) :
  frame i (map fd l) (map fr l) (map fs l) (map fa l) (map fc l)
  = map (fun ir => mkCleanRow (fst ir) (fd (snd ir)) (fr (snd ir))
                     (fs (snd ir)) (fa (snd ir)) (fc (snd ir)))
        (enumerate i l).
Proof.
  revert i. induction l as [|x l IH]; intros i; simpl; [reflexivity|].
  now rewrite IH.
Qed.

Lemma repeat_map {R B : Type} (b : B) (l : list R) :
  repeat b (List.length l) = map (fun _ => b) l.
Proof. induction l; simpl; [|rewrite IHl]; reflexivity. Qed.

Lemma remove_invalid_rows_valid (clean_df : list CleanRow) :
  remove_invalid_rows clean_df = filter valid clean_df.
Proof.
  unfold remove_invalid_rows. rewrite !filter_filter.
  apply filter_ext. intros r. unfold valid. now rewrite andb_assoc.
Qed.

Lemma column_index (df : DataFrame) (col : pystr) (j : nat) :
  index_of col (columns df) = Some j ->
  column df col = map (cell_at j) (rows df).
Proof.
  intros E. unfold column. apply map_ext. intros row. unfold cell.
  now rewrite E.
Qed.

(** When the three mapped columns exist and [to_datetime] accepts every
    date cell, [clean_df] holds one cleaned row per source row, in
    order. *)
Lemma build_clean_df_rows (df : DataFrame) (d s a : pystr) (c : option pystr) :
  in_columns d df = true -> in_columns s df = true ->
  in_columns a df = true ->
  forallb (parseable df d) (column df d) = true ->
  build_clean_df df d s a c
  = inr (map (clean_row df d s a c) (enumerate O (rows df))).
Proof.
  intros Hd Hs Ha Hp.
  apply index_of_in_columns in Hd, Hs, Ha.
  destruct Hd as [jd Ed], Hs as [js Es], Ha as [ja Ea].
  unfold build_clean_df, getitem. rewrite Ed, Es, Ea. cbn [bind ret].
  unfold to_datetime. rewrite <- (column_index _ _ _ Ed).
  rewrite (to_datetime_cells_ok _ _ _ Hp). cbn [bind ret].
  assert (Hcat :
    match c with
    | Some c0 =>
        if truthy c && in_columns c0 df
        then ccol <- match index_of c0 (columns df) with
                     | Some j => ret (map (cell_at j) (rows df))
                     | None => raise (KeyError c0)
                     end ;;
             ret (map (fun x => option_map strip (astype_str x)) ccol)
        else ret (repeat (Some (py "Uncategorized")) (List.length (rows df)))
    | None => ret (repeat (Some (py "Uncategorized")) (List.length (rows df)))
    end = inr (map (category_of df c) (rows df))).
  { unfold category_of. destruct c as [c0|]; [|now rewrite repeat_map].
    destruct (truthy (Some c0) && in_columns c0 df) eqn:Hc;
      [|now rewrite repeat_map].
    apply andb_true_iff in Hc. destruct Hc as [_ Hc].
    apply index_of_in_columns in Hc. destruct Hc as [jc Ec].
    rewrite Ec. cbn [bind ret]. rewrite map_map. unfold ret. f_equal.
    apply map_ext. intros row. unfold cell. now rewrite Ec. }
  rewrite Hcat. cbn [bind ret].
  rewrite <- (column_index _ _ _ Ea).
  change (map clean_amount (column df a)) with (amount_texts df a).
  unfold amount_texts at 2. unfold column.
  rewrite !map_map, frame_map.
  unfold ret. f_equal.
  apply map_ext. intros [i row]. unfold clean_row, cell.
  rewrite Es. reflexivity.
Qed.

(** The exception the [try] block raises, when it raises: the first of a
    missing date column, a date [to_datetime] raises on, a missing
    description column and a missing amount column. *)
Lemma build_clean_df_raises (df : DataFrame) (d s a : pystr) (c : option pystr) :
  in_columns d df && in_columns s df && in_columns a df
  && forallb (parseable df d) (column df d) = false ->
  exists e, build_clean_df df d s a c = inl e
    /\ (in_columns d df = false -> e = KeyError d)
    /\ (in_columns d df = true ->
        forallb (parseable df d) (column df d) = false ->
        exists y, In y (column df d)
                  /\ to_datetime_value pd (column df d) y = None
                  /\ e = DateParseError y)
    /\ (in_columns d df = true ->
        forallb (parseable df d) (column df d) = true ->
        in_columns s df = false -> e = KeyError s)
    /\ (in_columns d df = true ->
        forallb (parseable df d) (column df d) = true ->
        in_columns s df = true -> e = KeyError a).
Proof.
  intros H. unfold build_clean_df, getitem, in_columns in *.
  destruct (index_of d (columns df)) as [jd|] eqn:Ed.
  2:{ eexists. split; [reflexivity|]. split; [reflexivity|].
      repeat split; discriminate. }
  cbn [bind ret]. unfold to_datetime. rewrite <- (column_index _ _ _ Ed).
  destruct (forallb (parseable df d) (column df d)) eqn:Hp.
  2:{ destruct (to_datetime_cells_raises _ _ _ Hp) as [y [Hy [_ [Hpy E]]]].
      rewrite E. eexists. split; [reflexivity|].
      split; [discriminate|]. split; [|split; discriminate].
      intros _ _. exists y. auto. }
  rewrite (to_datetime_cells_ok _ _ _ Hp). cbn [bind ret].
  destruct (index_of s (columns df)) as [js|] eqn:Es.
  2:{ eexists. split; [reflexivity|]. split; [discriminate|].
      split; [discriminate|]. split; [reflexivity | discriminate]. }
  cbn [bind ret].
  destruct (index_of a (columns df)) as [ja|] eqn:Ea; [discriminate|].
  eexists. split; [reflexivity|]. split; [discriminate|].
  split; [discriminate|]. split; [discriminate | reflexivity].
Qed.

(** The call succeeds exactly when the three mapped columns exist and
    [to_datetime] accepts every date cell; its output is then the valid
    cleaned rows, in source order. *)
Lemma clean_transaction_data_success (df : DataFrame) (d s a : pystr)
    (c : option pystr) (out : list Transaction) :
  clean_transaction_data df d s a c = (Some out, None) <->
  in_columns d df = true /\ in_columns s df = true /\ in_columns a df = true
  /\ forallb (parseable df d) (column df d) = true
  /\ out = map select (filter valid
                         (map (clean_row df d s a c) (enumerate O (rows df)))).
Proof.
  unfold clean_transaction_data.
  destruct (in_columns d df && in_columns s df && in_columns a df
            && forallb (parseable df d) (column df d)) eqn:H.
  - apply andb_true_iff in H. destruct H as [H Hp].
    apply andb_true_iff in H. destruct H as [H Ha].
    apply andb_true_iff in H. destruct H as [Hd Hs].
    rewrite (build_clean_df_rows _ _ _ _ c Hd Hs Ha Hp).
    rewrite remove_invalid_rows_valid.
    split.
    + intros E. inversion E. tauto.
    + intros [_ [_ [_ [_ ->]]]]. reflexivity.
  - destruct (build_clean_df_raises _ _ _ _ c H) as [e [E _]]. rewrite E.
    split; [discriminate|].
    intros [Hd [Hs [Ha [Hp _]]]]. rewrite Hd, Hs, Ha, Hp in H. discriminate.
Qed.

(** The output records, one by one. *)
Lemma clean_transaction_data_In (df : DataFrame) (d s a : pystr)
    (c : option pystr) (out : list Transaction) (t : Transaction) :
  clean_transaction_data df d s a c = (Some out, None) ->
  (In t out <->
   exists row, nth_error (rows df) (t_index t) = Some row
     /\ valid (clean_row df d s a c (t_index t, row)) = true
     /\ t = transaction_of df d s a c (t_index t) row).
Proof.
  intros H. apply clean_transaction_data_success in H.
  destruct H as [_ [_ [_ [_ ->]]]].
  rewrite in_map_iff. split.
  - intros [r [<- Hr]]. apply filter_In in Hr. destruct Hr as [Hr Hv].
    apply in_map_iff in Hr. destruct Hr as [[i row] [<- Hin]].
    apply enumerate_In in Hin. destruct Hin as [_ Hn].
    rewrite Nat.sub_0_r in Hn. simpl. eauto.
  - intros [row [Hn [Hv ->]]].
    exists (clean_row df d s a c (t_index t, row)).
    split; [reflexivity|].
    apply filter_In. split; [|exact Hv].
    apply in_map. apply enumerate_In. rewrite Nat.sub_0_r. split; [lia|].
    exact Hn.
Qed.

Lemma valid_fields (r : CleanRow) :
  valid r = true ->
  notna (date r) = true /\ isna (amount r) = false
  /\ positive (amount r) = true /\ nonempty (description r) = true.
Proof.
  unfold valid. intros H.
  apply andb_true_iff in H. destruct H as [H H4].
  apply andb_true_iff in H. destruct H as [H H3].
  apply andb_true_iff in H. destruct H as [H1 H2].
  apply negb_true_iff in H2. auto.
Qed.

(** When the columns exist and the dates convert, a table whose rows all
    fail the filters gives success with no records. *)
Lemma all_rows_rejected_success (df : DataFrame) (d s a : pystr)
    (c : option pystr) :
  in_columns d df = true -> in_columns s df = true ->
  in_columns a df = true ->
  forallb (parseable df d) (column df d) = true ->
  (forall i row, nth_error (rows df) i = Some row ->
                 valid (clean_row df d s a c (i, row)) = false) ->
  clean_transaction_data df d s a c = (Some [], None).
Proof.
  intros Hd Hs Ha Hp Hall.
  apply clean_transaction_data_success. repeat (split; [assumption|]).
  destruct (filter valid (map (clean_row df d s a c) (enumerate O (rows df))))
    as [|r l] eqn:E; [reflexivity | exfalso].
  assert (Hr : In r (r :: l)) by now left.
  rewrite <- E in Hr. apply filter_In in Hr. destruct Hr as [Hr Hv].
  apply in_map_iff in Hr. destruct Hr as [[i row] [<- Hin]].
  apply enumerate_In in Hin. destruct Hin as [_ Hn].
  rewrite Nat.sub_0_r in Hn. rewrite (Hall _ _ Hn) in Hv. discriminate.
Qed.

(** C1 (the code departs from it): a date cell that is present and that
    [to_datetime] cannot read makes the whole call return the error pair,
    whatever the other rows hold. *)
Theorem unparseable_date_aborts (df : DataFrame) (d s a : pystr)
    (c : option pystr) (x : Cell) :
  in_columns d df = true ->
  In x (column df d) ->
  x <> CNull ->
  to_datetime_value pd (column df d) x = None ->
  exists y, In y (column df d)
    /\ to_datetime_value pd (column df d) y = None
    /\ clean_transaction_data df d s a c
       = (None, Some (Error_processing_data (DateParseError y))).
Proof.
  intros Hd Hin Hx Hp.
  assert (H : forallb (parseable df d) (column df d) = false).
  { destruct (forallb (parseable df d) (column df d)) eqn:E;
      [|reflexivity].
    rewrite forallb_forall in E. specialize (E _ Hin).
    destruct x; [contradiction| |]; simpl in E; rewrite Hp in E;
      discriminate. }
  destruct (build_clean_df_raises df d s a c) as [e [E [_ [He _]]]].
  { rewrite H. apply andb_false_r. }
  destruct (He Hd H) as [y [Hy [Hpy ->]]].
  exists y. split; [exact Hy|]. split; [exact Hpy|].
  unfold clean_transaction_data. now rewrite E.
Qed.

(** C4 (the code departs from it): a row whose description cleans to the
    empty text has no record in the output; the raw text is not used in
    its place. *)
Theorem emptied_description_dropped (df : DataFrame) (d s a : pystr)
    (c : option pystr) (out : list Transaction) (i : nat) (row : list Cell) :
  clean_transaction_data df d s a c = (Some out, None) ->
  nth_error (rows df) i = Some row ->
  clean_description (astype_str (cell df s row)) = [] ->
  forall t, In t out -> t_index t <> i.
Proof.
  intros H Hn He t Ht Hi.
  apply (clean_transaction_data_In _ _ _ _ _ _ t H) in Ht.
  destruct Ht as [row' [Hn' [Hv _]]]. subst i.
  rewrite Hn in Hn'. inversion Hn'; subst row'.
  unfold valid, clean_row in Hv. cbn [description fst snd] in Hv.
  rewrite He in Hv.
  now rewrite andb_false_r in Hv.
Qed.

(** C5 (amended): a date, description or amount column that is not in the
    header makes the call return the error pair and no records. The error
    is the [KeyError] of the date column when that one is missing; else
    the date error when [to_datetime] raises on the date column, which is
    read first; else the [KeyError] of the description column; else that
    of the amount column. A category column that is not in the header is
    not an error, the call then does what it does with no category
    column. *)
Theorem missing_column_outcome (df : DataFrame) (d s a : pystr)
    (c : option pystr) :
  (in_columns d df = false \/ in_columns s df = false
   \/ in_columns a df = false ->
   exists e, clean_transaction_data df d s a c
             = (None, Some (Error_processing_data e)))
  /\ (in_columns d df = false ->
      clean_transaction_data df d s a c
      = (None, Some (Error_processing_data (KeyError d))))
  /\ (in_columns d df = true ->
      forallb (parseable df d) (column df d) = false ->
      exists y, In y (column df d)
        /\ to_datetime_value pd (column df d) y = None
        /\ clean_transaction_data df d s a c
           = (None, Some (Error_processing_data (DateParseError y))))
  /\ (in_columns d df = true ->
      forallb (parseable df d) (column df d) = true ->
      in_columns s df = false ->
      clean_transaction_data df d s a c
      = (None, Some (Error_processing_data (KeyError s))))
  /\ (in_columns d df = true ->
      forallb (parseable df d) (column df d) = true ->
      in_columns s df = true -> in_columns a df = false ->
      clean_transaction_data df d s a c
      = (None, Some (Error_processing_data (KeyError a))))
  /\ (forall cat, in_columns cat df = false ->
      clean_transaction_data df d s a (Some cat)
      = clean_transaction_data df d s a None).
Proof.
  assert (Hr : forall cond : in_columns d df && in_columns s df
                              && in_columns a df
                              && forallb (parseable df d) (column df d)
                              = false,
             exists e, clean_transaction_data df d s a c
                       = (None, Some (Error_processing_data e))
               /\ build_clean_df df d s a c = inl e).
  { intros cond. destruct (build_clean_df_raises df d s a c cond) as [e [E _]].
    exists e. unfold clean_transaction_data. now rewrite E. }
  split; [|split; [|split; [|split; [|split]]]].
  - intros H. destruct (Hr) as [e [E _]]; [|eauto].
    destruct H as [H | [H | H]]; rewrite H; simpl;
      rewrite ?andb_false_r; reflexivity.
  - intros H.
    destruct (build_clean_df_raises df d s a c) as [e [E [Ee _]]];
      [now rewrite H|].
    unfold clean_transaction_data. now rewrite E, (Ee H).
  - intros Hd Hp.
    destruct (build_clean_df_raises df d s a c) as [e [E [_ [Ee _]]]];
      [rewrite Hp; apply andb_false_r|].
    destruct (Ee Hd Hp) as [y [Hy [Hpy ->]]].
    exists y. split; [exact Hy|]. split; [exact Hpy|].
    unfold clean_transaction_data. now rewrite E.
  - intros Hd Hp Hs.
    destruct (build_clean_df_raises df d s a c) as [e [E [_ [_ [Ee _]]]]];
      [now rewrite Hd, Hs|].
    unfold clean_transaction_data. now rewrite E, (Ee Hd Hp Hs).
  - intros Hd Hp Hs Ha.
    destruct (build_clean_df_raises df d s a c) as [e [E [_ [_ [_ Ee]]]]];
      [now rewrite Hd, Hs, Ha|].
    unfold clean_transaction_data. now rewrite E, (Ee Hd Hp Hs).
  - intros cat H. unfold clean_transaction_data, build_clean_df.
    now rewrite H, andb_false_r.
Qed.

(** C8: in a successful call the index labels of the output increase
    strictly, each record is the one computed from the source row with its
    label, and there are no more records than rows. *)
Theorem output_order_preserved (df : DataFrame) (d s a : pystr)
    (c : option pystr) (out : list Transaction) :
  clean_transaction_data df d s a c = (Some out, None) ->
  StronglySorted lt (map t_index out)
  /\ (forall t, In t out ->
      exists row, nth_error (rows df) (t_index t) = Some row
                  /\ t = transaction_of df d s a c (t_index t) row)
  /\ List.length out <= List.length (rows df).
Proof.
  intros H. split; [|split].
  - apply clean_transaction_data_success in H.
    destruct H as [_ [_ [_ [_ ->]]]].
    rewrite map_map.
    change (fun x => t_index (select x)) with index.
    apply filter_sorted. rewrite map_map.
    change (fun x => index (clean_row df d s a c x))
      with (@fst nat (list Cell)).
    rewrite enumerate_fst. apply seq_sorted.
  - intros t Ht. apply (clean_transaction_data_In _ _ _ _ _ _ t H) in Ht.
    destruct Ht as [row [Hn [_ E]]]. eauto.
  - apply clean_transaction_data_success in H.
    destruct H as [_ [_ [_ [_ ->]]]].
    rewrite length_map.
    etransitivity; [apply filter_length_le|].
    now rewrite length_map, enumerate_length.
Qed.

(** C9 (amended): in a successful call every record's category is
    [Uncategorized] when no category column is given, when its name is
    empty or when it is not in the header; otherwise it is the trimmed text
    of the row's category cell, whatever that text is, and is missing when
    [astype(str)] leaves a missing cell missing. *)
Theorem output_category (df : DataFrame) (d s a : pystr)
    (c : option pystr) (out : list Transaction) (t : Transaction) :
  clean_transaction_data df d s a c = (Some out, None) ->
  In t out ->
  exists row, nth_error (rows df) (t_index t) = Some row
    /\ t_category t
       = match c with
         | Some col =>
             if nonempty col && in_columns col df
             then option_map strip (astype_str (cell df col row))
             else Some (py "Uncategorized")
         | None => Some (py "Uncategorized")
         end.
Proof.
  intros H Ht. apply (clean_transaction_data_In _ _ _ _ _ _ t H) in Ht.
  destruct Ht as [row [Hn [_ E]]]. exists row. split; [exact Hn|].
  rewrite E. unfold transaction_of, select, clean_row, category_of.
  cbn [t_category category snd].
  destruct c as [[|x col]|]; reflexivity.
Qed.

(** C10 (amended): what becomes of a row whose description cell is missing
    depends on [astype(str)]. Where it gives the text [nan], the row gets
    the description [nan], is kept whenever its date and amount pass the
    filters, and any record of that row carries the description [nan].
    Where it leaves the value missing, the null check of the normalizer
    gives the empty description and the row has no record. *)
Theorem missing_description_outcome (df : DataFrame) (d s a : pystr)
    (c : option pystr) (out : list Transaction) (i : nat) (row : list Cell) :
  clean_transaction_data df d s a c = (Some out, None) ->
  nth_error (rows df) i = Some row ->
  cell df s row = CNull ->
  (str_cast pd = Missing_to_nan_text ->
   t_description (transaction_of df d s a c i row) = py "nan"
   /\ (forall t, In t out -> t_index t = i -> t_description t = py "nan")
   /\ (to_date df d (cell df d row) <> None ->
       isna (t_amount (transaction_of df d s a c i row)) = false ->
       positive (t_amount (transaction_of df d s a c i row)) = true ->
       In (transaction_of df d s a c i row) out))
  /\ (str_cast pd = Missing_kept ->
      t_description (transaction_of df d s a c i row) = []
      /\ forall t, In t out -> t_index t <> i).
Proof.
  intros H Hn Hc. split; intros Hcast.
  - assert (Hdesc :
      t_description (transaction_of df d s a c i row) = py "nan").
    { unfold transaction_of, select, clean_row.
      cbn [t_description description snd]. rewrite Hc.
      unfold astype_str, missing_str. rewrite Hcast. reflexivity. }
    split; [exact Hdesc|]. split.
    + intros t Ht Hi. apply (clean_transaction_data_In _ _ _ _ _ _ t H) in Ht.
      destruct Ht as [row' [Hn' [_ E]]]. subst i.
      rewrite Hn in Hn'. inversion Hn'; subst row'.
      rewrite E. exact Hdesc.
    + intros Hd Hna Ha.
      apply (clean_transaction_data_In _ _ _ _ _ _ _ H).
      exists row. cbn [t_index transaction_of select index clean_row fst].
      split; [exact Hn|]. split; [|reflexivity].
      unfold transaction_of, select in Hna, Ha, Hdesc.
      cbn [t_amount t_description] in Hna, Ha, Hdesc.
      unfold valid. rewrite Hna, Ha, Hdesc.
      unfold clean_row. cbn [date fst snd].
      destruct (to_date df d (cell df d row)); [reflexivity | contradiction].
  - assert (Hdesc : t_description (transaction_of df d s a c i row) = []).
    { unfold transaction_of, select, clean_row.
      cbn [t_description description snd]. rewrite Hc.
      unfold astype_str, missing_str. rewrite Hcast. reflexivity. }
    split; [exact Hdesc|].
    intros t Ht Hi. apply (clean_transaction_data_In _ _ _ _ _ _ t H) in Ht.
    destruct Ht as [row' [Hn' [Hv _]]]. subst i.
    rewrite Hn in Hn'. inversion Hn'; subst row'.
    apply valid_fields in Hv. destruct Hv as [_ [_ [_ Hv]]].
    unfold transaction_of, select in Hdesc. cbn [t_description] in Hdesc.
    rewrite Hdesc in Hv. discriminate.
Qed.

End PipelineFacts.

(** ** Amount text *)

Section AmountText.












End AmountText.


(** ** The pipeline on concrete tables *)

Example statement_ok_ingested :
  Sample.ingest Sample.statement_ok (py "date") (py "desc") (py "amt") None
  = (Some [ mkTransaction 0 (Some (py "2024-01-15")) (py "JOES DINER")
              (Float 23.45%float) (Some (py "Uncategorized"));
            mkTransaction 1 (Some (py "2024-01-16")) (py "WALMART")
              (Float 10%float) (Some (py "Uncategorized")) ],
     None).
Proof. vm_compute. reflexivity. Qed.

Example statement_aborts :
  Sample.ingest Sample.statement (py "date") (py "desc") (py "amt") None
  = (None,
     Some (Error_processing_data (DateParseError (CStr (py "bad-date"))))).
Proof. vm_compute. reflexivity. Qed.

Example only_prefix_ingested :
  Sample.ingest Sample.only_prefix (py "date") (py "desc") (py "amt") None
  = (Some [ mkTransaction 0 (Some (py "2024-01-15")) (py "JOES DINER")
              (Float 23.45%float) (Some (py "Uncategorized")) ],
     None).
Proof. vm_compute. reflexivity. Qed.

Example missing_description_ingested :
  Sample.ingest Sample.missing_description (py "date") (py "desc") (py "amt")
    None
  = (Some [ mkTransaction 0 (Some (py "2024-01-15")) (py "nan")
              (Float 23.45%float) (Some (py "Uncategorized"));
            mkTransaction 1 (Some (py "2024-01-16")) (py "WALMART")
              (Float 10%float) (Some (py "Uncategorized")) ],
     None).
Proof. vm_compute. reflexivity. Qed.

(** The column is read in the format of its first date: a date in
    another format aborts the call though it is a date. *)
Example mixed_dates_abort :
  Sample.ingest Sample.mixed_dates (py "date") (py "desc") (py "amt") None
  = (None,
     Some (Error_processing_data (DateParseError (CStr (py "2024-01-16"))))).
Proof. vm_compute. reflexivity. Qed.

(** A date text that reads as missing does not abort the call; its row is
    dropped. *)
Example null_like_date_dropped :
  Sample.ingest Sample.null_like_date (py "date") (py "desc") (py "amt") None
  = (Some [ mkTransaction 0 (Some (py "2024-01-15")) (py "COFFEE")
              (Int 3) (Some (py "Uncategorized")) ],
     None).
Proof. vm_compute. reflexivity. Qed.

(** A numeric amount column goes through its texts. *)
Example numeric_amounts_texts :
  amount_texts Sample.pandas2 Sample.numeric_amounts (py "amt")
  = [Some (py "12.5"); Some (py "-45.0"); Some (py "0.0"); Some (py "nan")]
  /\ amount_texts Sample.pandas3 Sample.numeric_amounts (py "amt")
     = [Some (py "12.5"); Some (py "-45.0"); Some (py "0.0"); None].
Proof. split; vm_compute; reflexivity. Qed.

(** An amount text that reads as infinity passes the filters. *)
Example infinite_amount_kept :
  Sample.ingest
    (mkDataFrame [py "date"; py "desc"; py "amt"]
       [ [CStr (py "01/15/2024"); CStr (py "COFFEE"); CStr (py "inf")] ])
    (py "date") (py "desc") (py "amt") None
  = (Some [ mkTransaction 0 (Some (py "2024-01-15")) (py "COFFEE")
              (Float PrimFloat.infinity) (Some (py "Uncategorized")) ],
     None).
Proof. vm_compute. reflexivity. Qed.

Lemma unparseable_date_aborts_witness :
  to_datetime_value Sample.pandas2
    (column Sample.statement (py "date")) (CStr (py "bad-date")) = None
  /\ exists y,
       In y (column Sample.statement (py "date"))
       /\ to_datetime_value Sample.pandas2
            (column Sample.statement (py "date")) y = None
       /\ Sample.ingest Sample.statement (py "date") (py "desc") (py "amt")
            None
          = (None, Some (Error_processing_data (DateParseError y))).
Proof.
  split; [reflexivity|].
  apply (unparseable_date_aborts Sample.pandas2 Sample.statement (py "date")
           (py "desc") (py "amt") None (CStr (py "bad-date"))).
  - reflexivity.
  - simpl. right. left. reflexivity.
  - discriminate.
  - reflexivity.
Defined.

Lemma emptied_description_dropped_witness :
  normalize (py "POS") = []
  /\ forall t,
       In t [ mkTransaction 0 (Some (py "2024-01-15")) (py "JOES DINER")
                (Float 23.45%float) (Some (py "Uncategorized")) ] ->
       t_index t <> 1.
Proof.
  split; [reflexivity|].
  apply (emptied_description_dropped Sample.pandas2 Sample.only_prefix
           (py "date") (py "desc") (py "amt") None _ 1
           [CStr (py "01/16/2024"); CStr (py "POS"); CStr (py "$5")]).
  - vm_compute. reflexivity.
  - reflexivity.
  - reflexivity.
Defined.

(** C5, as stated, fails for the category field: a category column that is
    not in the header gives a successful call. *)
Lemma missing_category_column_succeeds :
  in_columns (py "cat") Sample.statement_ok = false
  /\ Sample.ingest Sample.statement_ok (py "date") (py "desc") (py "amt")
       (Some (py "cat"))
     = (Some [ mkTransaction 0 (Some (py "2024-01-15")) (py "JOES DINER")
                 (Float 23.45%float) (Some (py "Uncategorized"));
               mkTransaction 1 (Some (py "2024-01-16")) (py "WALMART")
                 (Float 10%float) (Some (py "Uncategorized")) ],
        None).
Proof. split; vm_compute; reflexivity. Qed.

Lemma missing_column_outcome_witness :
  Sample.ingest Sample.statement_ok (py "date") (py "memo") (py "amt") None
  = (None, Some (Error_processing_data (KeyError (py "memo"))))
  /\ Sample.ingest Sample.statement_ok (py "date") (py "desc") (py "sum") None
     = (None, Some (Error_processing_data (KeyError (py "sum"))))
  /\ Sample.ingest Sample.statement_ok (py "when") (py "memo") (py "amt") None
     = (None, Some (Error_processing_data (KeyError (py "when"))))
  /\ (exists y,
        In y (column Sample.statement (py "date"))
        /\ to_datetime_value Sample.pandas2
             (column Sample.statement (py "date")) y = None
        /\ Sample.ingest Sample.statement (py "date") (py "memo") (py "amt")
             None
           = (None, Some (Error_processing_data (DateParseError y))))
  /\ Sample.ingest Sample.statement_ok (py "date") (py "desc") (py "amt")
       (Some (py "cat"))
     = Sample.ingest Sample.statement_ok (py "date") (py "desc") (py "amt")
         None.
Proof.
  split; [|split; [|split; [|split]]].
  - apply (missing_column_outcome Sample.pandas2 Sample.statement_ok
             (py "date") (py "memo") (py "amt") None); reflexivity.
  - apply (missing_column_outcome Sample.pandas2 Sample.statement_ok
             (py "date") (py "desc") (py "sum") None); reflexivity.
  - apply (missing_column_outcome Sample.pandas2 Sample.statement_ok
             (py "when") (py "memo") (py "amt") None); reflexivity.
  - apply (missing_column_outcome Sample.pandas2 Sample.statement
             (py "date") (py "memo") (py "amt") None); reflexivity.
  - apply (missing_column_outcome Sample.pandas2 Sample.statement_ok
             (py "date") (py "desc") (py "amt") None); reflexivity.
Defined.

(** C6 (the code departs from it): every row of the table is rejected for
    its amount [abc], and the call returns the error pair because one date
    does not parse; with parseable dates the same rows give success with no
    records. *)
Theorem all_rejected_with_bad_date_aborts :
  forallb (fun row =>
             negb (positive
                     (to_amount Sample.pandas2
                        (amount_texts Sample.pandas2 Sample.all_abc (py "amt"))
                        (clean_amount Sample.pandas2
                           (cell Sample.all_abc (py "amt") row)))))
          (rows Sample.all_abc) = true
  /\ Sample.ingest Sample.all_abc (py "date") (py "desc") (py "amt") None
     = (None,
        Some (Error_processing_data (DateParseError (CStr (py "bad-date")))))
  /\ Sample.ingest Sample.all_abc_dated (py "date") (py "desc") (py "amt") None
     = (Some [], None).
Proof. repeat split; vm_compute; reflexivity. Qed.


Lemma output_order_preserved_witness :
  StronglySorted lt [0; 1]
  /\ List.length
       [ mkTransaction 0 (Some (py "2024-01-15")) (py "JOES DINER")
           (Float 23.45%float) (Some (py "Uncategorized"));
         mkTransaction 1 (Some (py "2024-01-16")) (py "WALMART")
           (Float 10%float) (Some (py "Uncategorized")) ] <= 2.
Proof.
  destruct (output_order_preserved Sample.pandas2 Sample.statement_ok
              (py "date") (py "desc") (py "amt") None _ eq_refl)
    as [Hs [_ Hl]].
  split; [exact Hs | exact Hl].
Defined.

(** C9, as stated, fails: a blank category cell gives a record whose
    category is the empty text. *)
Lemma blank_category_record :
  Sample.ingest Sample.blank_category (py "date") (py "desc") (py "amt")
    (Some (py "cat"))
  = (Some [ mkTransaction 0 (Some (py "2024-01-15")) (py "COFFEE")
              (Int 3) (Some []);
            mkTransaction 1 (Some (py "2024-01-16")) (py "TEA")
              (Int 2) (Some (py "nan")) ],
     None)
  /\ t_category (mkTransaction 0 (Some (py "2024-01-15")) (py "COFFEE")
                   (Int 3) (Some [])) = Some [].
Proof. split; vm_compute; reflexivity. Qed.

(** Where [astype(str)] keeps a missing value, the record of a missing
    category cell has no category at all. *)
Example missing_category_kept_missing :
  Sample.ingest3 Sample.blank_category (py "date") (py "desc") (py "amt")
    (Some (py "cat"))
  = (Some [ mkTransaction 0 (Some (py "2024-01-15")) (py "COFFEE")
              (Int 3) (Some []);
            mkTransaction 1 (Some (py "2024-01-16")) (py "TEA")
              (Int 2) None ],
     None).
Proof. vm_compute. reflexivity. Qed.

Lemma output_category_witness :
  exists row,
    nth_error (rows Sample.blank_category) 0 = Some row
    /\ Some [] = option_map strip
                   (astype_str Sample.pandas2
                      (cell Sample.blank_category (py "cat") row)).
Proof.
  destruct (output_category Sample.pandas2 Sample.blank_category (py "date")
              (py "desc") (py "amt") (Some (py "cat")) _
              (mkTransaction 0 (Some (py "2024-01-15")) (py "COFFEE")
                 (Int 3) (Some []))
              eq_refl (or_introl eq_refl)) as [row [Hn Hc]].
  exists row. split; [exact Hn | exact Hc].
Defined.

(** C10, as stated, fails where [astype(str)] keeps a missing value: the
    row with the missing description is dropped. *)
Lemma missing_description_dropped :
  cell Sample.missing_description (py "desc")
    [CStr (py "01/15/2024"); CNull; CStr (py "$23.45")] = CNull
  /\ Sample.ingest3 Sample.missing_description (py "date") (py "desc")
       (py "amt") None
     = (Some [ mkTransaction 1 (Some (py "2024-01-16")) (py "WALMART")
                 (Float 10%float) (Some (py "Uncategorized")) ],
        None).
Proof. split; vm_compute; reflexivity. Qed.

Lemma missing_description_outcome_witness :
  In (mkTransaction 0 (Some (py "2024-01-15")) (py "nan") (Float 23.45%float)
        (Some (py "Uncategorized")))
     [ mkTransaction 0 (Some (py "2024-01-15")) (py "nan")
         (Float 23.45%float) (Some (py "Uncategorized"));
       mkTransaction 1 (Some (py "2024-01-16")) (py "WALMART")
         (Float 10%float) (Some (py "Uncategorized")) ]
  /\ forall t,
       In t [ mkTransaction 1 (Some (py "2024-01-16")) (py "WALMART")
                (Float 10%float) (Some (py "Uncategorized")) ] ->
       t_index t <> 0.
Proof.
  split.
  - apply (proj1 (missing_description_outcome Sample.pandas2
                    Sample.missing_description (py "date") (py "desc")
                    (py "amt") None _ 0
                    [CStr (py "01/15/2024"); CNull; CStr (py "$23.45")]
                    eq_refl eq_refl eq_refl) eq_refl).
    + discriminate.
    + reflexivity.
    + reflexivity.
  - apply (proj2 (missing_description_outcome Sample.pandas3
                    Sample.missing_description (py "date") (py "desc")
                    (py "amt") None _ 0
                    [CStr (py "01/15/2024"); CNull; CStr (py "$23.45")]
                    eq_refl eq_refl eq_refl) eq_refl).
Defined.

(** * Further properties of the code *)

(** ** The normalizer *)

Section NormalizerMore.

Lemma nonspace_app (a b : pystr) : nonspace (a ++ b) = nonspace a ++ nonspace b.
Proof. apply filter_app. Qed.

Lemma nonspace_lstrip (s : pystr) : nonspace (lstrip s) = nonspace s.
Proof.
  induction s as [|c s IH]; simpl; [reflexivity|].
  destruct (is_space c) eqn:Hc; simpl; rewrite ?Hc; simpl; [exact IH | reflexivity].
Qed.

Lemma nonspace_rev (s : pystr) : nonspace (rev s) = rev (nonspace s).
Proof.
  induction s as [|c s IH]; simpl; [reflexivity|].
  rewrite nonspace_app, IH. simpl.
  destruct (is_space c); simpl; [now rewrite app_nil_r | reflexivity].
Qed.

Lemma nonspace_strip (s : pystr) : nonspace (strip s) = nonspace s.
Proof.
  unfold strip, rstrip.
  rewrite nonspace_rev, nonspace_lstrip, nonspace_rev, rev_involutive.
  apply nonspace_lstrip.
Qed.

Lemma nonspace_join_split (s : pystr) : nonspace (join (split s)) = nonspace s.
Proof.
  induction s as [|c s IH]; [reflexivity|].
  cbn [split]. destruct (is_space c) eqn:Hc.
  - simpl. rewrite Hc. simpl. exact IH.
  - destruct s as [|d s'].
    + simpl. now rewrite Hc.
    + destruct (is_space d) eqn:Hd.
      * rewrite join_cons_app, nonspace_app.
        change (nonspace (c :: d :: s'))
          with (if negb (is_space c) then c :: nonspace (d :: s')
                else nonspace (d :: s')).
        change (nonspace [c])
          with (if negb (is_space c) then [c] else []).
        rewrite Hc. cbn [negb app]. f_equal. rewrite <- IH.
        destruct (split (d :: s')); reflexivity.
      * change (nonspace (c :: d :: s'))
          with (if negb (is_space c) then c :: nonspace (d :: s')
                else nonspace (d :: s')).
        rewrite Hc. cbn [negb]. rewrite <- IH.
        destruct (split (d :: s')) as [|w ws].
        -- simpl. now rewrite Hc.
        -- rewrite join_cons.
           change (nonspace (c :: join (w :: ws)))
             with (if negb (is_space c) then c :: nonspace (join (w :: ws))
                   else nonspace (join (w :: ws))).
           now rewrite Hc.
Qed.

Lemma match_literal_app (pat text rest : pystr) :
  match_literal pat text = Some rest -> exists pre, text = pre ++ rest.
Proof.
  revert text. induction pat as [|p pat IH]; intros text H; simpl in H.
  - inversion H. now exists [].
  - destruct text as [|c text]; [discriminate|].
    destruct (literal_ignorecase p c); [|discriminate].
    destruct (IH _ H) as [pre ->]. now exists (c :: pre).
Qed.

Lemma sub_prefix_nonspace (p x : pystr) :
  exists removed, nonspace x = removed ++ nonspace (sub_prefix p x).
Proof.
  unfold sub_prefix. destruct (match_literal p x) as [rest|] eqn:E.
  - destruct (match_literal_app _ _ _ E) as [pre ->].
    exists (nonspace pre). now rewrite nonspace_app, nonspace_lstrip.
  - now exists [].
Qed.

Lemma remove_prefixes_nonspace (ps : list pystr) (x : pystr) :
  exists removed, nonspace x = removed ++ nonspace (remove_prefixes ps x).
Proof.
  unfold remove_prefixes. revert x.
  induction ps as [|p ps IH]; intros x; simpl; [now exists []|].
  destruct (sub_prefix_nonspace p x) as [r1 E1].
  destruct (IH (sub_prefix p x)) as [r2 E2].
  exists (r1 ++ r2). now rewrite E1, E2 at 1; rewrite app_assoc.
Qed.

Lemma split_lstrip (s : pystr) : split (lstrip s) = split s.
Proof.
  induction s as [|c s IH]; [reflexivity|].
  cbn [lstrip split]. destruct (is_space c) eqn:Hc; [exact IH|].
  cbn [split]. now rewrite Hc.
Qed.

Lemma split_snoc_space (s : pystr) (c : char) :
  is_space c = true -> split (s ++ [c]) = split s.
Proof.
  intros Hc. induction s as [|x s IH].
  - simpl. now rewrite Hc.
  - change ((x :: s) ++ [c]) with (x :: (s ++ [c])).
    destruct s as [|d s'].
    + simpl. destruct (is_space x); rewrite Hc; reflexivity.
    + change ((d :: s') ++ [c]) with (d :: (s' ++ [c])) in *.
      change (split (x :: d :: s' ++ [c]))
        with (if is_space x then split (d :: s' ++ [c])
              else if is_space d then [x] :: split (d :: s' ++ [c])
              else match split (d :: s' ++ [c]) with
                   | w :: ws => (x :: w) :: ws
                   | [] => [[x]]
                   end).
      rewrite IH. reflexivity.
Qed.

Lemma split_rstrip (s : pystr) : split (rstrip s) = split s.
Proof.
  unfold rstrip. rewrite <- (rev_involutive s) at 2.
  induction (rev s) as [|c r IH]; [reflexivity|].
  cbn [lstrip]. destruct (is_space c) eqn:Hc; [|reflexivity].
  rewrite IH. cbn [rev]. now rewrite split_snoc_space.
Qed.

Lemma split_strip (s : pystr) : split (strip s) = split s.
Proof. unfold strip. now rewrite split_rstrip, split_lstrip. Qed.

(** X1: the cleaned description is in normal form: trimming it or
    collapsing its whitespace again changes nothing. *)
Theorem normalize_normal_form (s : pystr) :
  strip (normalize s) = normalize s
  /\ join (split (normalize s)) = normalize s.
Proof.
  destruct (normalize_words s) as [ws [Hws E]]. rewrite E. split.
  - now apply strip_join.
  - now rewrite split_join.
Qed.

(** X2: cleaning only deletes: the non-whitespace characters of the result
    are a suffix of those of the input, and the result is never longer
    than the input. *)
Theorem normalize_keeps_a_suffix (s : pystr) :
  (exists removed, nonspace s = removed ++ nonspace (normalize s))
  /\ List.length (normalize s) <= List.length s.
Proof.
  rewrite normalize_eq. split.
  - rewrite nonspace_join_split.
    destruct (remove_prefixes_nonspace prefixes_to_remove (strip s))
      as [removed E].
    exists removed. now rewrite <- E, nonspace_strip.
  - etransitivity; [apply join_split_length|].
    etransitivity; [apply remove_prefixes_length|].
    unfold strip, rstrip. rewrite length_rev.
    etransitivity; [apply lstrip_length|].
    rewrite length_rev. apply lstrip_length.
Qed.

(** X3: a description that, once trimmed, begins with none of the seven
    prefixes only has its whitespace collapsed. *)
Theorem normalize_without_prefix (s : pystr) :
  starts_with_prefix prefixes_to_remove (strip s) = false ->
  normalize s = join (split s).
Proof.
  intros H. rewrite normalize_eq, (remove_prefixes_no_match _ _ H).
  now rewrite split_strip.
Qed.

Lemma normalize_without_prefix_witness :
  normalize (py "  Corner   Cafe ") = join (split (py "  Corner   Cafe ")).
Proof.
  apply (normalize_without_prefix (py "  Corner   Cafe ")). reflexivity.
Defined.

End NormalizerMore.

(** ** Tables *)

Section Tables.

Context {R : Type}.

Local Open Scope Z_scope.

Lemma max_bounded (l : list Z) (s : Z) :
  Forall (fun i => i <= s) l -> fold_right Z.max s l = s.
Proof.
  induction 1 as [|i l Hi _ IH]; simpl; [reflexivity|].
  rewrite IH. lia.
Qed.

Lemma next_rowid_well_formed (t : Db.Table R) :
  Db.well_formed t -> Db.next_rowid t = Db.seq t + 1.
Proof.
  intros [_ [Hb _]]. unfold Db.next_rowid. rewrite max_bounded; [reflexivity|].
  eapply Forall_impl; [|exact Hb]. simpl. intros; lia.
Qed.

Lemma sorted_snoc (l : list Z) (x : Z) :
  StronglySorted Z.lt l -> Forall (fun i => i < x) l ->
  StronglySorted Z.lt (l ++ [x]).
Proof.
  induction 1 as [|i l Hs IH Hall]; intros Hx; simpl.
  - repeat constructor.
  - inversion Hx; subst. constructor; [now apply IH|].
    apply Forall_app. split; [exact Hall | now repeat constructor].
Qed.

Lemma sorted_NoDup (l : list Z) : StronglySorted Z.lt l -> NoDup l.
Proof.
  induction 1 as [|i l Hs IH Hall]; constructor; [|exact IH].
  intros Hin. rewrite Forall_forall in Hall. specialize (Hall _ Hin). lia.
Qed.

Lemma sorted_filter (f : Z -> bool) (l : list Z) :
  StronglySorted Z.lt l -> StronglySorted Z.lt (filter f l).
Proof.
  induction 1 as [|i l Hs IH Hall]; simpl; [constructor|].
  destruct (f i); [|exact IH]. constructor; [exact IH|].
  rewrite Forall_forall in *. intros j Hj. apply filter_In in Hj.
  now apply Hall.
Qed.

Lemma insert_well_formed (t t' : Db.Table R) (r : R) :
  Db.well_formed t -> Db.insert t r = inr t' ->
  Db.records t' = Db.records t ++ [(Db.seq t + 1, r)]
  /\ Db.seq t' = Db.seq t + 1
  /\ Db.well_formed t'.
Proof.
  intros Hwf. unfold Db.insert. rewrite (next_rowid_well_formed _ Hwf).
  destruct (Db.seq t + 1 <=? Db.max_rowid); [|discriminate].
  intros E. inversion E; subst t'. cbn [Db.records Db.seq].
  split; [reflexivity|]. split; [reflexivity|].
  destruct Hwf as [Hs [Hb H0]].
  unfold Db.well_formed, Db.ids. cbn [Db.records Db.seq].
  rewrite map_app. cbn [map fst]. split; [|split; [|lia]].
  - apply sorted_snoc; [exact Hs|].
    eapply Forall_impl; [|exact Hb]. simpl. intros; lia.
  - apply Forall_app. split.
    + eapply Forall_impl; [|exact Hb]. simpl. intros; lia.
    + repeat constructor; lia.
Qed.

Lemma insert_succeeds (t : Db.Table R) (r : R) :
  Db.well_formed t -> Db.seq t < Db.max_rowid ->
  exists t', Db.insert t r = inr t'.
Proof.
  intros Hwf Hlt. unfold Db.insert. rewrite (next_rowid_well_formed _ Hwf).
  destruct (Z.leb_spec (Db.seq t + 1) Db.max_rowid); [eauto | lia].
Qed.

Lemma update_ids (t : Db.Table R) (i : Z) (f : R -> R) :
  Db.ids (Db.update t i f) = Db.ids t.
Proof.
  unfold Db.ids, Db.update. cbn [Db.records]. rewrite map_map.
  apply map_ext. intros p. now destruct (fst p =? i).
Qed.

Lemma update_well_formed (t : Db.Table R) (i : Z) (f : R -> R) :
  Db.well_formed t -> Db.well_formed (Db.update t i f).
Proof.
  unfold Db.well_formed. rewrite update_ids. now cbn [Db.seq Db.update].
Qed.

Lemma delete_ids (t : Db.Table R) (i : Z) :
  Db.ids (Db.delete t i) = filter (fun j => negb (j =? i)) (Db.ids t).
Proof.
  unfold Db.ids, Db.delete. cbn [Db.records].
  induction (Db.records t) as [|p l IH]; simpl; [reflexivity|].
  destruct (fst p =? i); simpl; now rewrite IH.
Qed.

Lemma delete_well_formed (t : Db.Table R) (i : Z) :
  Db.well_formed t -> Db.well_formed (Db.delete t i).
Proof.
  intros [Hs [Hb H0]]. unfold Db.well_formed. rewrite delete_ids.
  cbn [Db.seq Db.delete]. split; [now apply sorted_filter|].
  split; [|exact H0].
  rewrite Forall_forall in *. intros j Hj. apply filter_In in Hj.
  now apply Hb.
Qed.

Lemma delete_all_well_formed (t : Db.Table R) :
  Db.well_formed t -> Db.well_formed (Db.delete_all t).
Proof.
  intros [_ [_ H0]]. unfold Db.well_formed, Db.ids. cbn.
  split; [constructor|]. split; [constructor | exact H0].
Qed.

Lemma selects_In (t : Db.Table R) (i : Z) :
  Db.selects t i = true <-> In i (Db.ids t).
Proof.
  unfold Db.selects. rewrite existsb_exists. split.
  - intros [j [Hj E]]. apply Z.eqb_eq in E. now subst.
  - intros H. exists i. split; [exact H | apply Z.eqb_refl].
Qed.

Lemma not_selected_update (t : Db.Table R) (i : Z) (f : R -> R) :
  Db.selects t i = false -> Db.update t i f = t.
Proof.
  intros H. destruct t as [l s]. unfold Db.update. cbn [Db.records Db.seq].
  f_equal. unfold Db.selects, Db.ids in H. cbn [Db.records] in H.
  induction l as [|p l IH]; simpl in *; [reflexivity|].
  apply orb_false_iff in H. destruct H as [Hp Hl].
  rewrite Z.eqb_sym, Hp. now rewrite IH.
Qed.

Lemma not_selected_delete (t : Db.Table R) (i : Z) :
  Db.selects t i = false -> Db.delete t i = t.
Proof.
  intros H. destruct t as [l s]. unfold Db.delete. cbn [Db.records Db.seq].
  f_equal. unfold Db.selects, Db.ids in H. cbn [Db.records] in H.
  induction l as [|p l IH]; simpl in *; [reflexivity|].
  apply orb_false_iff in H. destruct H as [Hp Hl].
  rewrite Z.eqb_sym, Hp. simpl. now rewrite IH.
Qed.

Lemma lookup_delete_same (t : Db.Table R) (i : Z) :
  Db.lookup (Db.delete t i) i = None.
Proof.
  unfold Db.lookup, Db.delete. cbn [Db.records].
  induction (Db.records t) as [|p l IH]; simpl; [reflexivity|].
  destruct (fst p =? i) eqn:E; simpl; [exact IH|]. now rewrite E.
Qed.

Lemma lookup_delete_other (t : Db.Table R) (i j : Z) :
  j <> i -> Db.lookup (Db.delete t i) j = Db.lookup t j.
Proof.
  intros Hne. unfold Db.lookup, Db.delete. cbn [Db.records].
  induction (Db.records t) as [|p l IH]; simpl; [reflexivity|].
  destruct (Z.eqb_spec (fst p) i) as [E|E]; simpl.
  - destruct (Z.eqb_spec (fst p) j); [congruence | exact IH].
  - destruct (fst p =? j); [reflexivity | exact IH].
Qed.

Lemma lookup_update_same (t : Db.Table R) (i : Z) (f : R -> R) :
  Db.lookup (Db.update t i f) i = option_map f (Db.lookup t i).
Proof.
  unfold Db.lookup, Db.update. cbn [Db.records].
  induction (Db.records t) as [|p l IH]; simpl; [reflexivity|].
  destruct (fst p =? i) eqn:E; simpl; rewrite E; [reflexivity | exact IH].
Qed.

Lemma lookup_update_other (t : Db.Table R) (i j : Z) (f : R -> R) :
  j <> i -> Db.lookup (Db.update t i f) j = Db.lookup t j.
Proof.
  intros Hne. unfold Db.lookup, Db.update. cbn [Db.records].
  induction (Db.records t) as [|p l IH]; simpl; [reflexivity|].
  destruct (Z.eqb_spec (fst p) i) as [E|E]; simpl.
  - destruct (Z.eqb_spec (fst p) j); [congruence | exact IH].
  - destruct (fst p =? j); [reflexivity | exact IH].
Qed.

Lemma lookup_not_In (l : list (Z * R)) (i : Z) :
  ~ In i (map fst l) -> find (fun p => fst p =? i) l = None.
Proof.
  induction l as [|p l IH]; simpl; intros H; [reflexivity|].
  destruct (Z.eqb_spec (fst p) i); [tauto | apply IH; tauto].
Qed.

Lemma lookup_snoc (l : list (Z * R)) (i j : Z) (r : R) :
  ~ In i (map fst l) ->
  option_map snd (find (fun p => fst p =? j) (l ++ [(i, r)]))
  = if j =? i then Some r else option_map snd (find (fun p => fst p =? j) l).
Proof.
  intros Hi. induction l as [|p l IH]; simpl in *.
  - rewrite Z.eqb_sym. now destruct (j =? i).
  - destruct (Z.eqb_spec (fst p) j) as [E|E].
    + destruct (Z.eqb_spec j i); [subst; tauto | reflexivity].
    + apply IH. tauto.
Qed.

Lemma well_formed_fresh (t : Db.Table R) :
  Db.well_formed t -> ~ In (Db.seq t + 1) (Db.ids t).
Proof.
  intros [_ [Hb _]] Hin. rewrite Forall_forall in Hb.
  specialize (Hb _ Hin). lia.
Qed.

End Tables.

(** ** The store operations *)

Section Store.

Local Open Scope Z_scope.

Lemma SFeqb_refl (x : spec_float) : x <> S754_nan -> SFeqb x x = true.
Proof.
  destruct x as [s|s| |s m e]; intros H; unfold SFeqb, SFcompare.
  - reflexivity.
  - now destruct s.
  - exfalso. now apply H.
  - rewrite Z.compare_refl, Pos.compare_cont_refl. now destruct s.
Qed.

(** A float greater than zero is not [NaN]. *)
Lemma positive_not_nan (f : float) :
  PrimFloat.ltb PrimFloat.zero f = true -> PrimFloat.is_nan f = false.
Proof.
  unfold PrimFloat.is_nan. rewrite FloatAxioms.ltb_spec, FloatAxioms.eqb_spec. intros H.
  rewrite SFeqb_refl; [reflexivity|].
  intros E. rewrite E in H. discriminate.
Qed.

Lemma valid_storable_float (f : float) :
  isna (Float f) = false -> Db.storable (Float f) = true.
Proof. simpl. now intros ->. Qed.

Lemma bind_number_storable (x : Number) :
  Db.storable x = true ->
  Db.bind_number (Some x) = inr (Some (Db.stored_real x)).
Proof.
  destruct x as [z|f]; intros H; cbn [Db.bind_number Db.stored_real].
  - now rewrite H.
  - simpl in H. apply negb_true_iff in H. now rewrite H.
Qed.

Lemma bind_number_Some (x : option Number) (a : float) :
  Db.bind_number x = inr (Some a) ->
  exists y, x = Some y /\ Db.storable y = true /\ Db.stored_real y = a.
Proof.
  destruct x as [[z|f]|]; cbn [Db.bind_number]; [| |discriminate].
  - destruct (Db.storable (Int z)) eqn:E; [|discriminate].
    intros H. inversion H. exists (Int z). auto.
  - destruct (PrimFloat.is_nan f) eqn:E; [discriminate|].
    intros H. inversion H; subst a. exists (Float f).
    split; [reflexivity|]. split; [simpl; now rewrite E | reflexivity].
Qed.

Lemma add_transaction_inv (now : pystr) (db db' : Db.Database)
    (d s : option pystr) (a : option Number) (c : option pystr) :
  Db.add_transaction now db d s a c = inr db' ->
  exists d' s' a' c' t',
    d = Some d' /\ s = Some s' /\ Db.bind_number a = inr (Some a')
    /\ c = Some c'
    /\ Db.insert (Db.transactions db) (Db.mkTransactionRow d' s' a' c' now)
       = inr t'
    /\ db' = Db.mkDatabase t' (Db.net_worth_items db).
Proof.
  unfold Db.add_transaction.
  destruct (Db.bind_number a) as [e|[a'|]]; cbn [Db.dbind];
    [discriminate| |destruct d, s; discriminate].
  destruct d as [d'|]; [|discriminate].
  destruct s as [s'|]; [|discriminate].
  destruct c as [c'|]; [|discriminate].
  cbn [Db.not_null Db.dbind].
  destruct (Db.insert (Db.transactions db)
              (Db.mkTransactionRow d' s' a' c' now)) as [e|t'] eqn:E;
    [discriminate|].
  cbn [Db.dbind]. intros H. inversion H.
  exists d', s', a', c', t'. now repeat split.
Qed.

Lemma add_net_worth_item_inv (now : pystr) (db db' : Db.Database)
    (ty n c : option pystr) (a : option Number) (notes : option pystr) :
  Db.add_net_worth_item now db ty n c a notes = inr db' ->
  exists ty' n' c' a' t',
    ty = Some ty' /\ n = Some n' /\ c = Some c'
    /\ Db.bind_number a = inr (Some a')
    /\ Db.insert (Db.net_worth_items db)
         (Db.mkNetWorthRow ty' n' c' a' notes now now) = inr t'
    /\ db' = Db.mkDatabase (Db.transactions db) t'.
Proof.
  unfold Db.add_net_worth_item.
  destruct (Db.bind_number a) as [e|[a'|]]; cbn [Db.dbind];
    [discriminate| |destruct ty, n, c; discriminate].
  destruct ty as [ty'|]; [|discriminate].
  destruct n as [n'|]; [|discriminate].
  destruct c as [c'|]; [|discriminate].
  cbn [Db.not_null Db.dbind].
  destruct (Db.insert (Db.net_worth_items db)
              (Db.mkNetWorthRow ty' n' c' a' notes now now)) as [e|t'] eqn:E;
    [discriminate|].
  cbn [Db.dbind]. intros H. inversion H.
  exists ty', n', c', a', t'. now repeat split.
Qed.

Lemma update_transaction_inv (db db' : Db.Database) (i : Z)
    (d s : option pystr) (a : option Number) (c : option pystr) :
  Db.update_transaction db i d s a c = inr db' ->
  (Db.selects (Db.transactions db) i = false /\ db' = db)
  \/ exists d' s' a' c',
       Db.selects (Db.transactions db) i = true
       /\ d = Some d' /\ s = Some s' /\ Db.bind_number a = inr (Some a')
       /\ c = Some c'
       /\ db' = Db.mkDatabase
                  (Db.update (Db.transactions db) i
                     (fun r => Db.mkTransactionRow d' s' a' c'
                                 (Db.tx_created_at r)))
                  (Db.net_worth_items db).
Proof.
  unfold Db.update_transaction.
  destruct (Db.bind_number a) as [e|a0]; cbn [Db.dbind]; [discriminate|].
  destruct (Db.selects (Db.transactions db) i).
  2:{ intros H. inversion H. now left. }
  destruct d as [d'|]; [|discriminate].
  destruct s as [s'|]; [|discriminate].
  destruct a0 as [a'|]; [|discriminate].
  destruct c as [c'|]; [|discriminate].
  cbn [Db.not_null Db.dbind]. intros H. inversion H. right.
  exists d', s', a', c'. now repeat split.
Qed.

Lemma update_net_worth_item_inv (now : pystr) (db db' : Db.Database) (i : Z)
    (n c : option pystr) (a : option Number) (notes : option pystr) :
  Db.update_net_worth_item now db i n c a notes = inr db' ->
  (Db.selects (Db.net_worth_items db) i = false /\ db' = db)
  \/ exists n' c' a',
       Db.selects (Db.net_worth_items db) i = true
       /\ n = Some n' /\ c = Some c' /\ Db.bind_number a = inr (Some a')
       /\ db' = Db.mkDatabase (Db.transactions db)
                  (Db.update (Db.net_worth_items db) i
                     (fun r => Db.mkNetWorthRow (Db.nw_item_type r) n' c' a'
                                 notes (Db.nw_created_at r) now)).
Proof.
  unfold Db.update_net_worth_item.
  destruct (Db.bind_number a) as [e|a0]; cbn [Db.dbind]; [discriminate|].
  destruct (Db.selects (Db.net_worth_items db) i).
  2:{ intros H. inversion H. now left. }
  destruct n as [n'|]; [|discriminate].
  destruct c as [c'|]; [|discriminate].
  destruct a0 as [a'|]; [|discriminate].
  cbn [Db.not_null Db.dbind]. intros H. inversion H. right.
  exists n', c', a'. now repeat split.
Qed.

(** What the loop of the bulk insert leaves behind when it ends. *)
Lemma bulk_loop_spec (clock : nat -> pystr) (df : list Transaction) :
  forall (db db' : Db.Database) (count n : nat),
    Db.well_formed (Db.transactions db) ->
    Db.bulk_loop clock db count df = inr (db', n) ->
    n = (count + List.length df)%nat
    /\ Db.net_worth_items db' = Db.net_worth_items db
    /\ Db.well_formed (Db.transactions db')
    /\ Db.seq (Db.transactions db')
       = Db.seq (Db.transactions db) + Z.of_nat (List.length df)
    /\ exists new,
         Db.records (Db.transactions db')
         = Db.records (Db.transactions db) ++ new
         /\ map fst new
            = map (fun k => Db.seq (Db.transactions db) + 1 + Z.of_nat k)
                  (List.seq O (List.length df))
         /\ Forall2 stores df (map snd new)
         /\ map Db.tx_created_at (map snd new)
            = map clock (List.seq count (List.length df)).
Proof.
  induction df as [|row df IH]; intros db db' count n Hwf H.
  - simpl in H. inversion H; subst. cbn [List.length].
    split; [lia|]. split; [reflexivity|]. split; [exact Hwf|].
    split; [simpl; lia|].
    exists []. rewrite app_nil_r. repeat split; constructor.
  - cbn [Db.bulk_loop] in H.
    destruct (Db.add_transaction (clock count) db (t_date row)
                (Some (t_description row)) (Some (t_amount row))
                (t_category row)) as [e|db1] eqn:E; [discriminate|].
    cbn [Db.dbind] in H.
    destruct (add_transaction_inv _ _ _ _ _ _ _ E)
      as [d' [s' [a' [c' [t' [Hd [Hs [Ha [Hc [Hins ->]]]]]]]]]].
    inversion Hs; subst s'.
    destruct (bind_number_Some _ _ Ha) as [y [Hy [_ Hst']]].
    inversion Hy; subst y.
    destruct (insert_well_formed _ _ _ Hwf Hins) as [Hrec [Hseq Hwf']].
    destruct (IH (Db.mkDatabase t' (Db.net_worth_items db)) _ _ _ Hwf' H)
      as [Hn [Hnw [Hwf2 [Hseq2 [new [Hrec2 [Hids [Hst Hclk]]]]]]]].
    cbn [Db.transactions Db.net_worth_items] in *.
    cbn [List.length]. split; [lia|]. split; [exact Hnw|].
    split; [exact Hwf2|]. split; [rewrite Hseq2, Hseq; lia|].
    exists ((Db.seq (Db.transactions db) + 1,
             Db.mkTransactionRow d' (t_description row) a' c'
               (clock count)) :: new).
    split; [rewrite Hrec2, Hrec, <- app_assoc; reflexivity|].
    cbn [map fst snd List.seq]. split; [|split].
    + f_equal; [simpl; lia|].
      rewrite Hids, <- seq_shift, map_map. apply map_ext. intros k.
      rewrite Hseq. lia.
    + constructor; [|exact Hst].
      unfold stores. cbn. repeat split; assumption.
    + cbn. f_equal. exact Hclk.
Qed.

Lemma bulk_loop_succeeds (clock : nat -> pystr) (df : list Transaction) :
  forall (db : Db.Database) (count : nat),
    Db.well_formed (Db.transactions db) ->
    Forall (fun t => t_date t <> None /\ Db.storable (t_amount t) = true
                     /\ t_category t <> None) df ->
    Db.seq (Db.transactions db) + Z.of_nat (List.length df) <= Db.max_rowid ->
    exists db' n, Db.bulk_loop clock db count df = inr (db', n).
Proof.
  induction df as [|row df IH]; intros db count Hwf Hall Hroom.
  - simpl. eauto.
  - inversion Hall as [|? ? [Hd [Ha Hc]] Hall']; subst.
    cbn [List.length] in Hroom. cbn [Db.bulk_loop].
    destruct (t_date row) as [d|]; [|contradiction].
    destruct (t_category row) as [c|]; [|contradiction].
    unfold Db.add_transaction. rewrite (bind_number_storable _ Ha).
    cbn [Db.not_null Db.dbind].
    destruct (insert_succeeds (Db.transactions db)
                (Db.mkTransactionRow d (t_description row)
                   (Db.stored_real (t_amount row)) c
                   (clock count)) Hwf ltac:(lia)) as [t' Hins].
    rewrite Hins. cbn [Db.dbind].
    destruct (insert_well_formed _ _ _ Hwf Hins) as [_ [Hseq Hwf']].
    apply IH; cbn [Db.transactions]; [exact Hwf' | exact Hall' | lia].
Qed.

End Store.

(** ** The pipeline: outcomes and composition *)

Section PipelineMore.

Variable pd : Pandas.

Local Abbreviation parseable := (parseable pd).
Local Abbreviation to_date := (to_date pd).
Local Abbreviation to_amount := (to_amount pd).
Local Abbreviation amount_texts := (amount_texts pd).
Local Abbreviation clean_amount := (clean_amount pd).
Local Abbreviation clean_row := (clean_row pd).
Local Abbreviation build_clean_df := (build_clean_df pd).
Local Abbreviation clean_transaction_data := (clean_transaction_data pd).

Lemma positive_greater_than_zero (x : Number) :
  isna x = false -> positive x = true -> greater_than_zero x.
Proof.
  destruct x as [z|f]; simpl; intros Hna Hp.
  - now apply Z.ltb_lt.
  - split; assumption.
Qed.

Lemma output_records_filled (df : DataFrame) (d s a : pystr)
    (c : option pystr) (out : list Transaction) :
  clean_transaction_data df d s a c = (Some out, None) ->
  Forall (fun t => t_date t <> None /\ isna (t_amount t) = false
                   /\ positive (t_amount t) = true) out.
Proof.
  intros H. apply Forall_forall. intros t Ht.
  apply (clean_transaction_data_In _ _ _ _ _ _ _ t H) in Ht.
  destruct Ht as [row [_ [Hv ->]]].
  apply valid_fields in Hv. destruct Hv as [H1 [H2 [H3 _]]].
  unfold transaction_of, select. cbn [t_date t_amount].
  split; [intros E; rewrite E in *; discriminate|].
  split; [exact H2 | exact H3].
Qed.

Lemma output_categories_present (df : DataFrame) (d s a : pystr)
    (c : option pystr) (out : list Transaction) :
  str_cast pd = Missing_to_nan_text \/ c = None ->
  clean_transaction_data df d s a c = (Some out, None) ->
  Forall (fun t => t_category t <> None) out.
Proof.
  intros Hc H. apply Forall_forall. intros t Ht.
  apply (clean_transaction_data_In _ _ _ _ _ _ _ t H) in Ht.
  destruct Ht as [row [_ [_ ->]]].
  unfold transaction_of, select, clean_row, category_of.
  cbn [t_category category snd].
  destruct Hc as [Hc | ->]; [|discriminate].
  destruct c as [col|]; [|discriminate].
  destruct (truthy (Some col) && in_columns col df); [|discriminate].
  unfold astype_str, missing_str. rewrite Hc.
  destruct (cell df col row) as [|x|x]; try discriminate.
  destruct (isna x); discriminate.
Qed.

(** X4: every record of a successful call has a date, written from the
    parsed date of its source row, an amount that is a number greater than
    zero and a description that is not empty. *)
Theorem output_records_valid (df : DataFrame) (d s a : pystr)
    (c : option pystr) (out : list Transaction) (t : Transaction) :
  clean_transaction_data df d s a c = (Some out, None) ->
  In t out ->
  exists row dt,
    nth_error (rows df) (t_index t) = Some row
    /\ to_date df d (cell df d row) = Some dt
    /\ t_date t = Some (strftime dt)
    /\ t_amount t = to_amount (amount_texts df a)
                      (clean_amount (cell df a row))
    /\ greater_than_zero (t_amount t)
    /\ t_description t <> [].
Proof.
  intros H Ht.
  apply (clean_transaction_data_In _ _ _ _ _ _ _ t H) in Ht.
  destruct Ht as [row [Hn [Hv E]]].
  apply valid_fields in Hv. destruct Hv as [H1 [H2 [H3 H4]]].
  unfold clean_row in H1, H2, H3, H4.
  cbn [date amount description fst snd] in H1, H2, H3, H4.
  destruct (to_date df d (cell df d row)) as [dt|] eqn:Ed; [|discriminate].
  exists row, dt. rewrite E.
  unfold transaction_of, select, clean_row.
  cbn [t_date t_amount t_description date amount description fst snd].
  rewrite Ed. simpl option_map.
  split; [exact Hn|]. split; [reflexivity|]. split; [reflexivity|].
  split; [reflexivity|].
  split; [now apply positive_greater_than_zero|].
  intros E'. rewrite E' in H4. discriminate.
Qed.

Lemma parseable_iff (df : DataFrame) (d : pystr) (x : Cell) :
  parseable df d x = true
  <-> x = CNull \/ to_datetime_value pd (column df d) x <> None.
Proof.
  destruct x as [|t|n]; simpl.
  - split; auto.
  - destruct (to_datetime_value pd (column df d) (CStr t)); simpl.
    + split; [intros _; right; discriminate | reflexivity].
    + split; [discriminate | intros [H | H]; [discriminate | contradiction]].
  - destruct (to_datetime_value pd (column df d) (CNum n)); simpl.
    + split; [intros _; right; discriminate | reflexivity].
    + split; [discriminate | intros [H | H]; [discriminate | contradiction]].
Qed.

(** X5: the call succeeds exactly when the date, description and amount
    columns are in the header and every cell of the date column is missing
    or is one [to_datetime] does not raise on when it reads the column;
    otherwise it returns the error pair. Amounts, descriptions and the
    category column never make it fail. *)
Theorem ingestion_succeeds_iff (df : DataFrame) (d s a : pystr)
    (c : option pystr) :
  ((exists out, clean_transaction_data df d s a c = (Some out, None))
   <-> (in_columns d df = true /\ in_columns s df = true
        /\ in_columns a df = true
        /\ forall row, In row (rows df) ->
             cell df d row = CNull
             \/ to_datetime_value pd (column df d) (cell df d row) <> None))
  /\ ((exists out, clean_transaction_data df d s a c = (Some out, None))
      \/ exists e, clean_transaction_data df d s a c
                   = (None, Some (Error_processing_data e))).
Proof.
  assert (Hall : forallb (parseable df d) (column df d) = true
                 <-> forall row, In row (rows df) ->
                       cell df d row = CNull
                       \/ to_datetime_value pd (column df d) (cell df d row)
                          <> None).
  { rewrite forallb_forall. unfold column at 1. split.
    - intros H row Hr. apply parseable_iff. apply H. now apply in_map.
    - intros H x Hx. apply in_map_iff in Hx. destruct Hx as [row [<- Hr]].
      apply parseable_iff. now apply H. }
  split.
  - split.
    + intros [out H]. apply clean_transaction_data_success in H.
      destruct H as [Hd [Hs [Ha [Hp _]]]]. rewrite <- Hall. auto.
    + intros [Hd [Hs [Ha Hp]]]. eexists.
      apply clean_transaction_data_success.
      repeat (split; [assumption|]). split; [now apply Hall | reflexivity].
  - unfold clean_transaction_data.
    destruct (build_clean_df df d s a c); eauto.
Qed.

(** X6: a table with no rows gives success with no records when the three
    columns are in the header; a missing column is still an error. *)
Theorem empty_table_outcome (df : DataFrame) (d s a : pystr)
    (c : option pystr) :
  rows df = [] ->
  (in_columns d df = true -> in_columns s df = true ->
   in_columns a df = true ->
   clean_transaction_data df d s a c = (Some [], None))
  /\ (in_columns d df && in_columns s df && in_columns a df = false ->
      exists col, clean_transaction_data df d s a c
                  = (None, Some (Error_processing_data (KeyError col)))).
Proof.
  intros Hr. split.
  - intros Hd Hs Ha. apply clean_transaction_data_success.
    unfold column. rewrite Hr. simpl. auto.
  - intros H. unfold clean_transaction_data,
      build_clean_df, getitem, in_columns in *.
    rewrite Hr. cbn [map].
    destruct (index_of d (columns df)); [|eexists; reflexivity].
    unfold to_datetime. cbn [bind ret to_datetime_cells].
    destruct (index_of s (columns df)); [|eexists; reflexivity].
    cbn [bind ret].
    destruct (index_of a (columns df)); [discriminate | eexists; reflexivity].
Qed.

Lemma enumerate_app {A : Type} (k : nat) (l1 l2 : list A) :
  enumerate k (l1 ++ l2)
  = enumerate k l1 ++ enumerate (k + List.length l1) l2.
Proof.
  revert k. induction l1 as [|x l1 IH]; intros k; simpl.
  - now rewrite Nat.add_0_r.
  - rewrite IH. do 3 f_equal. lia.
Qed.

Lemma enumerate_shift {A : Type} (k : nat) (l : list A) :
  enumerate k l = map (fun p => (k + fst p, snd p)) (enumerate O l).
Proof.
  revert k. induction l as [|x l IH]; intros k; simpl; [reflexivity|].
  rewrite Nat.add_0_r. f_equal.
  rewrite (IH (S k)), (IH 1%nat), map_map. apply map_ext.
  intros p. simpl. f_equal. lia.
Qed.

Lemma filter_map_swap {A B : Type} (f : A -> B) (g : B -> bool) (l : list A) :
  filter g (map f l) = map f (filter (fun x => g (f x)) l).
Proof.
  induction l as [|x l IH]; simpl; [reflexivity|].
  destruct (g (f x)); simpl; now rewrite IH.
Qed.

Lemma forallb_eq {A : Type} (f g : A -> bool) (l : list A) :
  (forall x, f x = g x) -> forallb f l = forallb g l.
Proof.
  intros H. induction l as [|x l IH]; simpl; [reflexivity|].
  now rewrite H, IH.
Qed.

Lemma column_repeat (cols : list pystr) (rows0 : list (list Cell))
    (col : pystr) :
  column (mkDataFrame cols (rows0 ++ rows0)) col
  = column (mkDataFrame cols rows0) col ++ column (mkDataFrame cols rows0) col.
Proof. unfold column. cbn [rows]. now rewrite map_app. Qed.

Lemma parseable_repeat (cols : list pystr) (rows0 : list (list Cell))
    (d : pystr) (x : Cell) :
  parseable (mkDataFrame cols (rows0 ++ rows0)) d x
  = parseable (mkDataFrame cols rows0) d x.
Proof.
  destruct x; simpl; [reflexivity| |];
    now rewrite column_repeat, to_datetime_repeat.
Qed.

(** The table with its rows twice over cleans each row as the table
    does. *)
Lemma clean_row_repeat (cols : list pystr) (rows0 : list (list Cell))
    (d s a : pystr) (c : option pystr) (ir : nat * list Cell) :
  clean_row (mkDataFrame cols (rows0 ++ rows0)) d s a c ir
  = clean_row (mkDataFrame cols rows0) d s a c ir.
Proof.
  assert (Hd : forall x,
            to_date (mkDataFrame cols (rows0 ++ rows0)) d x
            = to_date (mkDataFrame cols rows0) d x).
  { intros x. destruct x; simpl; [reflexivity| |];
      now rewrite column_repeat, to_datetime_repeat. }
  assert (Ha : forall t,
            to_amount (amount_texts (mkDataFrame cols (rows0 ++ rows0)) a) t
            = to_amount (amount_texts (mkDataFrame cols rows0) a) t).
  { intros t. unfold to_amount, to_numeric, amount_texts.
    rewrite column_repeat, map_app.
    destruct t as [text|]; [|reflexivity].
    now rewrite to_numeric_repeat. }
  unfold clean_row. rewrite Hd, Ha. reflexivity.
Qed.


(** X7: nothing is dropped as a duplicate: when a table is ingested
    successfully, the table holding its rows twice over gives every record
    twice, the second copy after the first and relabelled by the number of
    rows. *)
Theorem ingestion_of_repeated_rows (cols : list pystr)
    (rows0 : list (list Cell)) (d s a : pystr) (c : option pystr)
    (out : list Transaction) :
  clean_transaction_data (mkDataFrame cols rows0) d s a c = (Some out, None) ->
  clean_transaction_data (mkDataFrame cols (rows0 ++ rows0)) d s a c
  = (Some (out ++ map (shift_index (List.length rows0)) out), None).
Proof.
  intros H.
  apply clean_transaction_data_success in H.
  destruct H as [Hd [Hs [Ha [Hp ->]]]].
  apply clean_transaction_data_success.
  repeat (split; [assumption|]). cbn [rows] in *. split.
  - rewrite column_repeat, forallb_app.
    rewrite (forallb_eq _ _ _ (parseable_repeat cols rows0 d)), Hp.
    reflexivity.
  - rewrite enumerate_app, map_app, filter_app, map_app.
    apply (f_equal2 (@app Transaction)).
    + apply (f_equal (map select)). apply (f_equal (filter valid)).
      apply map_ext. intros ir. symmetry. apply clean_row_repeat.
    + rewrite Nat.add_0_l, (enumerate_shift (List.length rows0) rows0).
      rewrite !map_map, !filter_map_swap, !map_map.
      set (df2 := mkDataFrame cols (rows0 ++ rows0)).
      transitivity
        (map (fun x => select (clean_row df2 d s a c
                                 (List.length rows0 + fst x, snd x)))
             (filter (fun x => valid (clean_row (mkDataFrame cols rows0)
                                        d s a c x))
                     (enumerate 0 rows0))).
      * apply map_ext. intros p. unfold df2. rewrite clean_row_repeat.
        reflexivity.
      * apply (f_equal (map _)). apply filter_ext. intros p. unfold df2.
        rewrite clean_row_repeat. reflexivity.
Qed.

End PipelineMore.

(** ** Amounts in parentheses *)

Section AmountMore.

Lemma replace_app (old : char) (new a b : pystr) :
  replace old new (a ++ b) = replace old new a ++ replace old new b.
Proof.
  induction a as [|c a IH]; simpl; [reflexivity|].
  destruct (char_eqb c old); rewrite IH; [now rewrite app_assoc | reflexivity].
Qed.

Lemma replace_cons_other (old c : char) (new s : pystr) :
  char_eqb c old = false ->
  replace old new (c :: s) = c :: replace old new s.
Proof. intros H. simpl. now rewrite H. Qed.

(** X8: an amount written in parentheses is cleaned to the same text as
    the amount written with a leading minus sign, and so to the same
    amount, whatever the other cells of the amount column are. *)
Theorem parenthesised_amount_is_negative_amount (pd : Pandas) (x : pystr) :
  clean_amount pd (CStr (40%N :: x ++ [41%N]))
  = clean_amount pd (CStr (45%N :: x))
  /\ forall before after : list Cell,
       to_amount pd
         (map (clean_amount pd)
            (before ++ CStr (40%N :: x ++ [41%N]) :: after))
         (clean_amount pd (CStr (40%N :: x ++ [41%N])))
       = to_amount pd
           (map (clean_amount pd) (before ++ CStr (45%N :: x) :: after))
           (clean_amount pd (CStr (45%N :: x))).
Proof.
  assert (E : clean_amount pd (CStr (40%N :: x ++ [41%N]))
              = clean_amount pd (CStr (45%N :: x))).
  { unfold clean_amount, clean_amount_text. cbn [astype_str option_map].
    f_equal. f_equal.
    rewrite !(replace_cons_other 36%N) by reflexivity.
    rewrite !(replace_cons_other 44%N) by reflexivity.
    rewrite !replace_app.
    change (replace 36%N [] [41%N]) with [41%N].
    change (replace 44%N [] [41%N]) with [41%N].
    set (r := replace 44%N [] (replace 36%N [] x)).
    change (replace 40%N (py "-") (40%N :: r ++ [41%N]))
      with (45%N :: replace 40%N (py "-") (r ++ [41%N])).
    rewrite (replace_cons_other 40%N 45%N) by reflexivity.
    rewrite replace_app.
    change (replace 40%N (py "-") [41%N]) with [41%N].
    rewrite !(replace_cons_other 41%N 45%N) by reflexivity.
    rewrite replace_app.
    change (replace 41%N [] [41%N]) with (@nil char).
    now rewrite app_nil_r. }
  split; [exact E|].
  intros before after. rewrite !map_app. cbn [map]. now rewrite E.
Qed.

End AmountMore.

(** ** File upload *)

Section UploadMore.

Lemma pystr_eqb_eq (a b : pystr) : pystr_eqb a b = true <-> a = b.
Proof.
  revert b. induction a as [|x a IH]; intros [|y b]; simpl;
    try (split; [discriminate | discriminate]); [tauto|].
  unfold char_eqb. rewrite andb_true_iff, N.eqb_eq, IH.
  split; [intros [-> ->]; reflexivity | intros E; inversion E; auto].
Qed.

(** [endswith] holds exactly of the texts that are a stem followed by the
    suffix. *)
Lemma endswith_stem (s suffix : pystr) :
  endswith s suffix = true <-> exists stem, s = stem ++ suffix.
Proof.
  unfold endswith. rewrite andb_true_iff, Nat.leb_le, pystr_eqb_eq. split.
  - intros [_ E].
    exists (firstn (List.length s - List.length suffix) s).
    rewrite <- E at 2. symmetry. apply firstn_skipn.
  - intros [stem ->]. rewrite length_app. split; [lia|].
    replace (List.length stem + List.length suffix - List.length suffix)
      with (List.length stem) by lia.
    rewrite skipn_app, skipn_all, Nat.sub_diag. reflexivity.
Qed.

Variable read_csv : UploadedFile -> pystr + DataFrame.
Variable read_excel : UploadedFile -> pystr + DataFrame.

(** X9: the reader is chosen by the end of the file name alone, exactly as
    spelled ([.csv] first, then [.xlsx] or [.xls]); any other name gives
    the fixed message without a reader being consulted; and the call
    returns a frame or a message, never both and never neither. *)
Theorem parse_uploaded_file_outcome (f : UploadedFile) :
  ((exists stem, name f = stem ++ py ".csv") ->
   parse_uploaded_file read_csv read_excel f
   = match read_csv f with
     | inr df => (Some df, None)
     | inl e => (None, Some (Error_reading_file e))
     end)
  /\ (~ (exists stem, name f = stem ++ py ".csv") ->
      (exists stem, name f = stem ++ py ".xlsx"
                    \/ name f = stem ++ py ".xls") ->
      parse_uploaded_file read_csv read_excel f
      = match read_excel f with
        | inr df => (Some df, None)
        | inl e => (None, Some (Error_reading_file e))
        end)
  /\ (~ (exists stem, name f = stem ++ py ".csv"
                      \/ name f = stem ++ py ".xlsx"
                      \/ name f = stem ++ py ".xls") ->
      parse_uploaded_file read_csv read_excel f
      = (None, Some Please_upload_a_CSV_or_Excel_file))
  /\ (fst (parse_uploaded_file read_csv read_excel f) = None
      <-> snd (parse_uploaded_file read_csv read_excel f) <> None).
Proof.
  unfold parse_uploaded_file.
  destruct (endswith (name f) (py ".csv")) eqn:Ecsv.
  - apply endswith_stem in Ecsv.
    split; [reflexivity|]. split; [tauto|]. split.
    + intros H. exfalso. apply H. destruct Ecsv as [stem E]. eauto.
    + destruct (read_csv f); simpl; split; congruence.
  - assert (Hcsv : ~ exists stem, name f = stem ++ py ".csv").
    { intros H. apply endswith_stem in H. congruence. }
    split; [tauto|].
    destruct (endswith (name f) (py ".xlsx")) eqn:Ex;
      [|destruct (endswith (name f) (py ".xls")) eqn:El]; cbn [orb].
    + split; [reflexivity|]. split.
      * intros H. exfalso. apply H. apply endswith_stem in Ex.
        destruct Ex as [stem E]. eauto.
      * destruct (read_excel f); simpl; split; congruence.
    + split; [reflexivity|]. split.
      * intros H. exfalso. apply H. apply endswith_stem in El.
        destruct El as [stem E]. eauto.
      * destruct (read_excel f); simpl; split; congruence.
    + split.
      * intros _ [stem [H | H]]; exfalso.
        -- assert (Ht : endswith (name f) (py ".xlsx") = true)
             by (apply endswith_stem; eauto). congruence.
        -- assert (Ht : endswith (name f) (py ".xls") = true)
             by (apply endswith_stem; eauto). congruence.
      * split; [reflexivity|]. simpl. split; congruence.
Qed.

End UploadMore.

(** ** Manual entry and edit *)

Section ManualEntry.

Lemma lstrip_all_space (s : pystr) :
  Forall (fun ch => is_space ch = true) s -> lstrip s = [].
Proof.
  induction 1 as [|c s Hc _ IH]; simpl; [reflexivity|]. now rewrite Hc.
Qed.

Lemma normalize_nonempty_stripped (s : pystr) :
  normalize s <> [] -> strip (normalize s) <> [].
Proof.
  destruct (normalize_words s) as [ws [Hws E]]. rewrite E.
  now rewrite (strip_join _ Hws).
Qed.

Lemma final_description_not_blank (description : pystr) :
  strip description <> [] -> strip (final_description description) <> [].
Proof.
  intros H. unfold final_description, or_else.
  destruct (clean_description (Some description)) as [|c l] eqn:E;
    cbn [nonempty]; [exact H|].
  rewrite <- E. apply normalize_nonempty_stripped.
  unfold normalize. rewrite E. discriminate.
Qed.

Lemma can_add_fields (description : pystr) (amount : float) :
  can_add description amount = true ->
  strip description <> [] /\ PrimFloat.ltb PrimFloat.zero amount = true.
Proof.
  unfold can_add. intros H.
  apply andb_true_iff in H. destruct H as [H Hpos].
  apply andb_true_iff in H. destruct H as [H _].
  apply andb_true_iff in H. destruct H as [_ Hs].
  split; [|exact Hpos].
  intros E. rewrite E in Hs. discriminate.
Qed.

(** X10: the stored description of the edit form is empty only when the
    field is empty; a text of whitespace alone is stored as typed, since
    cleaning empties it and the raw text is used in its place. *)
Theorem final_description_empty_iff (description : pystr) :
  (final_description description = [] <-> description = [])
  /\ (Forall (fun ch => is_space ch = true) description ->
      final_description description = description).
Proof.
  unfold final_description, or_else. split.
  - destruct (clean_description (Some description)) as [|c l] eqn:E;
      cbn [nonempty]; [tauto|].
    split; [discriminate|]. intros ->. discriminate.
  - intros H.
    assert (E : normalize description = []).
    { rewrite normalize_eq. unfold strip.
      rewrite (lstrip_all_space _ H). reflexivity. }
    unfold normalize in E. now rewrite E.
Qed.

End ManualEntry.

(** ** The store *)

Section StoreFacts.

Local Open Scope Z_scope.

(** X11: after a bulk insert that ends normally, the count returned is the
    number of rows of the frame, and the table holds its earlier rows
    followed by one row per record, in the order of the frame, with
    consecutive new ids and the values of the records; the other table is
    untouched. *)
Theorem bulk_insert_appends (clock : nat -> pystr) (db db' : Db.Database)
    (df : list Transaction) (n : nat) :
  Db.well_formed (Db.transactions db) ->
  Db.add_bulk_transactions clock db df = inr (db', n) ->
  n = List.length df
  /\ Db.net_worth_items db' = Db.net_worth_items db
  /\ exists new,
       Db.records (Db.transactions db')
       = Db.records (Db.transactions db) ++ new
       /\ map fst new
          = map (fun k => Db.seq (Db.transactions db) + 1 + Z.of_nat k)
                (List.seq O (List.length df))
       /\ Forall2 stores df (map snd new).
Proof.
  intros Hwf H. unfold Db.add_bulk_transactions in H.
  destruct (bulk_loop_spec _ _ _ _ _ _ Hwf H)
    as [Hn [Hnw [_ [_ [new [Hrec [Hids [Hst _]]]]]]]].
  split; [exact Hn|]. split; [exact Hnw|]. exists new. auto.
Qed.

(** X12: the frame of a successful cleaning call can be imported when
    every record has a category, which it has when [astype(str)] gives a
    text for a missing value or when no category column is given, and
    when no amount is an integer beyond 64 bits: the bulk insert then ends
    normally and returns the number of records, as long as the ids do not
    run out. *)
Theorem import_of_cleaned_frame_succeeds (pd : Pandas) (df : DataFrame)
    (d s a : pystr) (c : option pystr) (out : list Transaction)
    (clock : nat -> pystr) (db : Db.Database) :
  clean_transaction_data pd df d s a c = (Some out, None) ->
  Db.well_formed (Db.transactions db) ->
  Db.seq (Db.transactions db) + Z.of_nat (List.length out) <= Db.max_rowid ->
  str_cast pd = Missing_to_nan_text \/ c = None
  \/ Forall (fun t => t_category t <> None) out ->
  Forall (fun t => forall z, t_amount t = Int z -> z <= 9223372036854775807)
         out ->
  exists db',
    Db.add_bulk_transactions clock db out = inr (db', List.length out).
Proof.
  intros H Hwf Hroom Hcat Hint.
  assert (Hcat' : Forall (fun t => t_category t <> None) out).
  { destruct Hcat as [Hc | [Hc | Hc]]; [| |exact Hc].
    - exact (output_categories_present pd df d s a c out (or_introl Hc) H).
    - exact (output_categories_present pd df d s a c out (or_intror Hc) H). }
  pose proof (output_records_filled pd df d s a c out H) as Hfilled.
  assert (Hall : Forall (fun t => t_date t <> None
                                  /\ Db.storable (t_amount t) = true
                                  /\ t_category t <> None) out).
  { apply Forall_forall. intros t Ht.
    rewrite Forall_forall in Hcat', Hint, Hfilled.
    destruct (Hfilled t Ht) as [Hd [Hna Hpos]].
    split; [exact Hd|]. split; [|now apply Hcat'].
    specialize (Hint t Ht).
    destruct (t_amount t) as [z|f]; simpl in Hna, Hpos |- *.
    - specialize (Hint z eq_refl). apply Z.ltb_lt in Hpos.
      apply andb_true_iff. split; apply Z.leb_le; lia.
    - now rewrite Hna. }
  destruct (bulk_loop_succeeds clock out db O Hwf Hall Hroom) as [db' [n E]].
  exists db'. unfold Db.add_bulk_transactions. rewrite E.
  destruct (bulk_loop_spec _ _ _ _ _ _ Hwf E) as [-> _]. reflexivity.
Qed.

Lemma well_formed_empty {R : Type} : Db.well_formed (@Db.empty R).
Proof.
  unfold Db.well_formed, Db.ids. simpl.
  split; [constructor|]. split; [constructor | lia].
Qed.

Lemma add_transaction_well_formed (now : pystr) (db db' : Db.Database)
    (d s : option pystr) (a : option Number) (c : option pystr) :
  db_well_formed db -> Db.add_transaction now db d s a c = inr db' ->
  db_well_formed db'.
Proof.
  intros [Ht Hn] H.
  destruct (add_transaction_inv _ _ _ _ _ _ _ H)
    as [d' [s' [a' [c' [t' [_ [_ [_ [_ [Hins ->]]]]]]]]]].
  destruct (insert_well_formed _ _ _ Ht Hins) as [_ [_ Hwf]].
  split; [exact Hwf | exact Hn].
Qed.

Lemma update_transaction_well_formed (db db' : Db.Database) (i : Z)
    (d s : option pystr) (a : option Number) (c : option pystr) :
  db_well_formed db -> Db.update_transaction db i d s a c = inr db' ->
  db_well_formed db'.
Proof.
  intros [Ht Hn] H.
  destruct (update_transaction_inv _ _ _ _ _ _ _ H)
    as [[_ ->] | [d' [s' [a' [c' [_ [_ [_ [_ [_ ->]]]]]]]]]];
    [now split|].
  split; [now apply update_well_formed | exact Hn].
Qed.

Lemma add_bulk_transactions_well_formed (clock : nat -> pystr)
    (db db' : Db.Database) (df : list Transaction) (n : nat) :
  db_well_formed db -> Db.add_bulk_transactions clock db df = inr (db', n) ->
  db_well_formed db'.
Proof.
  intros [Ht Hn] H. unfold Db.add_bulk_transactions in H.
  destruct (bulk_loop_spec _ _ _ _ _ _ Ht H) as [_ [E [Hwf _]]].
  split; [exact Hwf | now rewrite E].
Qed.

Lemma add_net_worth_item_well_formed (now : pystr) (db db' : Db.Database)
    (ty n c : option pystr) (a : option Number) (notes : option pystr) :
  db_well_formed db -> Db.add_net_worth_item now db ty n c a notes = inr db' ->
  db_well_formed db'.
Proof.
  intros [Ht Hn] H.
  destruct (add_net_worth_item_inv _ _ _ _ _ _ _ _ H)
    as [ty' [n' [c' [a' [t' [_ [_ [_ [_ [Hins ->]]]]]]]]]].
  destruct (insert_well_formed _ _ _ Hn Hins) as [_ [_ Hwf]].
  split; [exact Ht | exact Hwf].
Qed.

Lemma update_net_worth_item_well_formed (now : pystr) (db db' : Db.Database)
    (i : Z) (n c : option pystr) (a : option Number) (notes : option pystr) :
  db_well_formed db ->
  Db.update_net_worth_item now db i n c a notes = inr db' ->
  db_well_formed db'.
Proof.
  intros [Ht Hn] H.
  destruct (update_net_worth_item_inv _ _ _ _ _ _ _ _ H)
    as [[_ ->] | [n' [c' [a' [_ [_ [_ [_ ->]]]]]]]]; [now split|].
  split; [exact Ht | now apply update_well_formed].
Qed.

(** X13: a new store is well formed and every operation keeps it so: in
    both tables the ids are positive, increase down the rows and never
    exceed the sequence counter; in particular no two rows share an id. *)
Theorem store_keeps_ids_unique :
  db_well_formed (Db.init_database None)
  /\ (forall db, db_well_formed db ->
      NoDup (Db.ids (Db.transactions db))
      /\ NoDup (Db.ids (Db.net_worth_items db)))
  /\ (forall db, db_well_formed db ->
      (forall now d s a c db',
          Db.add_transaction now db d s a c = inr db' -> db_well_formed db')
      /\ (forall i d s a c db',
             Db.update_transaction db i d s a c = inr db' ->
             db_well_formed db')
      /\ (forall i, db_well_formed (Db.delete_transaction db i))
      /\ db_well_formed (Db.clear_all_transactions db)
      /\ (forall clock df db' n,
             Db.add_bulk_transactions clock db df = inr (db', n) ->
             db_well_formed db')
      /\ (forall now ty n c a notes db',
             Db.add_net_worth_item now db ty n c a notes = inr db' ->
             db_well_formed db')
      /\ (forall now i n c a notes db',
             Db.update_net_worth_item now db i n c a notes = inr db' ->
             db_well_formed db')
      /\ (forall i, db_well_formed (Db.delete_net_worth_item db i))).
Proof.
  split; [split; apply well_formed_empty|]. split.
  - intros db [[H1 _] [H2 _]]. split; now apply sorted_NoDup.
  - intros db Hdb.
    split; [intros; eapply add_transaction_well_formed; eassumption|].
    split; [intros; eapply update_transaction_well_formed; eassumption|].
    split; [intros i; destruct Hdb as [Ht Hn];
            split; [now apply delete_well_formed | exact Hn]|].
    split; [destruct Hdb as [Ht Hn];
            split; [now apply delete_all_well_formed | exact Hn]|].
    split; [intros; eapply add_bulk_transactions_well_formed; eassumption|].
    split; [intros; eapply add_net_worth_item_well_formed; eassumption|].
    split; [intros; eapply update_net_worth_item_well_formed; eassumption|].
    intros i. destruct Hdb as [Ht Hn].
    split; [exact Ht | now apply delete_well_formed].
Qed.

(** X14: deleting a transaction removes the row with that id and nothing
    else: every other id still reads as before, the sequence counter and
    the other table are untouched, and an id that is not in the table
    leaves the store as it was. *)
Theorem delete_transaction_removes_one_row (db : Db.Database) (i : Z) :
  Db.lookup (Db.transactions (Db.delete_transaction db i)) i = None
  /\ (forall j, j <> i ->
      Db.lookup (Db.transactions (Db.delete_transaction db i)) j
      = Db.lookup (Db.transactions db) j)
  /\ Db.seq (Db.transactions (Db.delete_transaction db i))
     = Db.seq (Db.transactions db)
  /\ Db.net_worth_items (Db.delete_transaction db i) = Db.net_worth_items db
  /\ (Db.selects (Db.transactions db) i = false ->
      Db.delete_transaction db i = db).
Proof.
  unfold Db.delete_transaction. cbn [Db.transactions Db.net_worth_items].
  split; [apply lookup_delete_same|].
  split; [intros j Hj; now apply lookup_delete_other|].
  split; [reflexivity|]. split; [reflexivity|].
  intros H. rewrite (not_selected_delete _ _ H). now destruct db.
Qed.

(** X15: updating a transaction with four values, the amount a number
    the store can hold, rewrites the date, description, amount and
    category of the row with that id and keeps its id and creation time;
    every other row, the order of the rows and the other table are
    untouched, and an id that is not in the table leaves the store as it
    was. An amount that is [NaN] is refused when the id is in the table,
    and an integer beyond 64 bits always. *)
Theorem update_transaction_changes_one_row (db : Db.Database) (i : Z)
    (d s : pystr) (a : Number) (c : pystr) :
  (Db.storable a = true ->
   exists db',
     Db.update_transaction db i (Some d) (Some s) (Some a) (Some c) = inr db'
     /\ Db.ids (Db.transactions db') = Db.ids (Db.transactions db)
     /\ Db.lookup (Db.transactions db') i
        = option_map (fun r => Db.mkTransactionRow d s (Db.stored_real a) c
                                 (Db.tx_created_at r))
                     (Db.lookup (Db.transactions db) i)
     /\ (forall j, j <> i ->
         Db.lookup (Db.transactions db') j = Db.lookup (Db.transactions db) j)
     /\ Db.net_worth_items db' = Db.net_worth_items db
     /\ (Db.selects (Db.transactions db) i = false -> db' = db))
  /\ (isna a = true ->
      Db.update_transaction db i (Some d) (Some s) (Some a) (Some c)
      = if Db.selects (Db.transactions db) i
        then inl (Db.IntegrityError (py "transactions.amount"))
        else inr db)
  /\ (isna a = false -> Db.storable a = false ->
      Db.update_transaction db i (Some d) (Some s) (Some a) (Some c)
      = inl Db.OverflowError).
Proof.
  split; [|split].
  - intros Ha.
    exists (Db.mkDatabase
              (Db.update (Db.transactions db) i
                 (fun r => Db.mkTransactionRow d s (Db.stored_real a) c
                             (Db.tx_created_at r)))
              (Db.net_worth_items db)).
    cbn [Db.transactions Db.net_worth_items].
    split.
    + unfold Db.update_transaction. rewrite (bind_number_storable _ Ha).
      cbn [Db.dbind].
      destruct (Db.selects (Db.transactions db) i) eqn:E; [reflexivity|].
      rewrite (not_selected_update _ _ _ E). now destruct db.
    + split; [apply update_ids|]. split; [apply lookup_update_same|].
      split; [intros j Hj; now apply lookup_update_other|].
      split; [reflexivity|].
      intros E. rewrite (not_selected_update _ _ _ E). now destruct db.
  - intros Ha. destruct a as [z|f]; [discriminate|]. simpl in Ha.
    unfold Db.update_transaction. cbn [Db.bind_number]. rewrite Ha.
    cbn [Db.dbind]. now destruct (Db.selects (Db.transactions db) i).
  - intros Hna Ha. destruct a as [z|f].
    + unfold Db.update_transaction. cbn [Db.bind_number]. now rewrite Ha.
    + simpl in Hna, Ha. rewrite Hna in Ha. discriminate.
Qed.

Lemma add_transaction_then_lookup_aux (now : pystr) (db db' : Db.Database)
    (d s : pystr) (a : Number) (c : pystr) :
  Db.well_formed (Db.transactions db) ->
  Db.add_transaction now db (Some d) (Some s) (Some a) (Some c) = inr db' ->
  Db.lookup (Db.transactions db') (Db.seq (Db.transactions db) + 1)
  = Some (Db.mkTransactionRow d s (Db.stored_real a) c now).
Proof.
  intros Hwf H.
  destruct (add_transaction_inv _ _ _ _ _ _ _ H)
    as [d' [s' [a' [c' [t' [Hd [Hs [Ha [Hc [Hins ->]]]]]]]]]].
  destruct (bind_number_Some _ _ Ha) as [y [Hy [_ Hst]]].
  inversion Hd; inversion Hs; inversion Hy; inversion Hc; subst.
  destruct (insert_well_formed _ _ _ Hwf Hins) as [Hrec [_ _]].
  cbn [Db.transactions].
  pose proof (well_formed_fresh _ Hwf) as Hfresh.
  unfold Db.lookup, Db.ids in *. rewrite Hrec.
  rewrite (lookup_snoc _ _ _ _ Hfresh), Z.eqb_refl. reflexivity.
Qed.

(** X16: an added transaction is stored under the id after the sequence
    counter, with the four values given and the time of the insert; it can
    be read back under that id, every earlier row reads as before, and the
    other table is untouched. *)
Theorem add_transaction_then_lookup (now : pystr) (db db' : Db.Database)
    (d s : pystr) (a : Number) (c : pystr) :
  Db.well_formed (Db.transactions db) ->
  Db.add_transaction now db (Some d) (Some s) (Some a) (Some c) = inr db' ->
  Db.lookup (Db.transactions db') (Db.seq (Db.transactions db) + 1)
  = Some (Db.mkTransactionRow d s (Db.stored_real a) c now)
  /\ (forall j, j <> Db.seq (Db.transactions db) + 1 ->
      Db.lookup (Db.transactions db') j = Db.lookup (Db.transactions db) j)
  /\ Db.ids (Db.transactions db')
     = Db.ids (Db.transactions db) ++ [Db.seq (Db.transactions db) + 1]
  /\ Db.net_worth_items db' = Db.net_worth_items db.
Proof.
  intros Hwf H.
  destruct (add_transaction_inv _ _ _ _ _ _ _ H)
    as [d' [s' [a' [c' [t' [Hd [Hs [Ha [Hc [Hins ->]]]]]]]]]].
  destruct (bind_number_Some _ _ Ha) as [y [Hy [_ Hst]]].
  inversion Hd; inversion Hs; inversion Hy; inversion Hc; subst.
  destruct (insert_well_formed _ _ _ Hwf Hins) as [Hrec [_ _]].
  cbn [Db.transactions Db.net_worth_items].
  pose proof (well_formed_fresh _ Hwf) as Hfresh.
  unfold Db.lookup, Db.ids in *. rewrite Hrec.
  split; [|split; [|split]].
  - rewrite (lookup_snoc _ _ _ _ Hfresh), Z.eqb_refl. reflexivity.
  - intros j Hj. rewrite (lookup_snoc _ _ _ _ Hfresh).
    destruct (Z.eqb_spec j (Db.seq (Db.transactions db) + 1));
      [contradiction | reflexivity].
  - now rewrite map_app.
  - reflexivity.
Qed.

(** X17: ids are never given twice: after a transaction is deleted, or all
    of them are, the next transaction added gets an id above every id the
    table held before. *)
Theorem ids_are_never_reused (now : pystr) (db db' : Db.Database)
    (emptied : Db.Database) (d s : pystr) (a : Number) (c : pystr) :
  Db.well_formed (Db.transactions db) ->
  (emptied = Db.clear_all_transactions db
   \/ exists i, emptied = Db.delete_transaction db i) ->
  Db.add_transaction now emptied (Some d) (Some s) (Some a) (Some c)
  = inr db' ->
  exists new_id,
    Db.ids (Db.transactions db')
    = Db.ids (Db.transactions emptied) ++ [new_id]
    /\ forall i, In i (Db.ids (Db.transactions db)) -> i < new_id.
Proof.
  intros Hwf He H.
  assert (Hwf' : Db.well_formed (Db.transactions emptied)).
  { destruct He as [-> | [i ->]]; cbn [Db.transactions
        Db.clear_all_transactions Db.delete_transaction];
      [now apply delete_all_well_formed | now apply delete_well_formed]. }
  assert (Hseq : Db.seq (Db.transactions emptied)
                 = Db.seq (Db.transactions db)).
  { destruct He as [-> | [i ->]]; reflexivity. }
  destruct (add_transaction_inv _ _ _ _ _ _ _ H)
    as [d' [s' [a' [c' [t' [_ [_ [_ [_ [Hins ->]]]]]]]]]].
  destruct (insert_well_formed _ _ _ Hwf' Hins) as [Hrec [_ _]].
  exists (Db.seq (Db.transactions db) + 1).
  cbn [Db.transactions]. split.
  - unfold Db.ids. rewrite Hrec, map_app, Hseq. reflexivity.
  - intros i Hi. destruct Hwf as [_ [Hb _]].
    rewrite Forall_forall in Hb. specialize (Hb _ Hi). lia.
Qed.

(** X18: updating a net-worth item, the amount a number the store can
    hold, rewrites its name, category, amount and notes and stamps the
    time of the update; its type, creation time and id stay as they were,
    and every other item and the transactions are untouched. An amount
    that is [NaN] is refused when the id is in the table, and an integer
    beyond 64 bits always. *)
Theorem update_net_worth_item_keeps_type (now : pystr) (db : Db.Database)
    (i : Z) (n c : pystr) (a : Number) (notes : option pystr) :
  (Db.storable a = true ->
   exists db',
     Db.update_net_worth_item now db i (Some n) (Some c) (Some a) notes
     = inr db'
     /\ Db.ids (Db.net_worth_items db') = Db.ids (Db.net_worth_items db)
     /\ Db.lookup (Db.net_worth_items db') i
        = option_map
            (fun r => Db.mkNetWorthRow (Db.nw_item_type r) n c
                        (Db.stored_real a) notes (Db.nw_created_at r) now)
            (Db.lookup (Db.net_worth_items db) i)
     /\ (forall j, j <> i ->
         Db.lookup (Db.net_worth_items db') j
         = Db.lookup (Db.net_worth_items db) j)
     /\ Db.transactions db' = Db.transactions db)
  /\ (isna a = true ->
      Db.update_net_worth_item now db i (Some n) (Some c) (Some a) notes
      = if Db.selects (Db.net_worth_items db) i
        then inl (Db.IntegrityError (py "net_worth_items.amount"))
        else inr db)
  /\ (isna a = false -> Db.storable a = false ->
      Db.update_net_worth_item now db i (Some n) (Some c) (Some a) notes
      = inl Db.OverflowError).
Proof.
  split; [|split].
  - intros Ha.
    exists (Db.mkDatabase (Db.transactions db)
              (Db.update (Db.net_worth_items db) i
                 (fun r => Db.mkNetWorthRow (Db.nw_item_type r) n c
                             (Db.stored_real a) notes
                             (Db.nw_created_at r) now))).
    cbn [Db.transactions Db.net_worth_items].
    split.
    + unfold Db.update_net_worth_item. rewrite (bind_number_storable _ Ha).
      cbn [Db.dbind].
      destruct (Db.selects (Db.net_worth_items db) i) eqn:E; [reflexivity|].
      rewrite (not_selected_update _ _ _ E). now destruct db.
    + split; [apply update_ids|]. split; [apply lookup_update_same|].
      split; [intros j Hj; now apply lookup_update_other | reflexivity].
  - intros Ha. destruct a as [z|f]; [discriminate|]. simpl in Ha.
    unfold Db.update_net_worth_item. cbn [Db.bind_number]. rewrite Ha.
    cbn [Db.dbind]. now destruct (Db.selects (Db.net_worth_items db) i).
  - intros Hna Ha. destruct a as [z|f].
    + unfold Db.update_net_worth_item. cbn [Db.bind_number]. now rewrite Ha.
    + simpl in Hna, Ha. rewrite Hna in Ha. discriminate.
Qed.

(** X19: the [Add Transaction] button stores a row only when it reports
    [Added]: the row then holds the ISO date, a description with a
    non-whitespace character (the cleaned text, or the raw text when
    cleaning empties it), an amount greater than zero, the category and
    the time of the insert; with any other notice the store is
    unchanged. *)
Theorem add_single_stores_a_filled_row (now : pystr) (db db' : Db.Database)
    (transaction_date : Date) (description : pystr) (amount : float)
    (category : pystr) (notice : Notice) :
  Db.well_formed (Db.transactions db) ->
  add_single now db transaction_date description amount category
  = (db', notice) ->
  (forall final, notice = Added final ->
     final = final_description description
     /\ strip final <> []
     /\ PrimFloat.ltb PrimFloat.zero amount = true
     /\ Db.lookup (Db.transactions db') (Db.seq (Db.transactions db) + 1)
        = Some (Db.mkTransactionRow (strftime transaction_date) final amount
                  category now))
  /\ ((forall final, notice <> Added final) -> db' = db).
Proof.
  intros Hwf H. unfold add_single in H.
  destruct (can_add description amount) eqn:Hg.
  2:{ inversion H; subst. split; [discriminate | reflexivity]. }
  destruct (Db.add_transaction now db (Some (strftime transaction_date))
              (Some (final_description description)) (Some (Float amount))
              (Some category)) as [e|db1] eqn:E.
  { inversion H; subst. split; [discriminate | reflexivity]. }
  inversion H; subst. split.
  - intros final Hf. inversion Hf; subst final.
    destruct (can_add_fields _ _ Hg) as [Hs Ha].
    split; [reflexivity|].
    split; [now apply final_description_not_blank|].
    split; [exact Ha|].
    exact (add_transaction_then_lookup_aux now db db'
             (strftime transaction_date)
             (final_description description) (Float amount) category Hwf E).
  - intros Hn. exfalso. now apply (Hn (final_description description)).
Qed.

End StoreFacts.

(** ** Which error is reported *)

Section ErrorOrder.

Variable pd : Pandas.

Local Abbreviation parseable := (parseable pd).
Local Abbreviation to_datetime_cells := (to_datetime_cells pd).
Local Abbreviation clean_transaction_data := (clean_transaction_data pd).

(** [to_datetime] raises on the first cell it cannot read. *)
Lemma to_datetime_cells_first (df : DataFrame) (d : pystr)
    (before after : list Cell) (x : Cell) :
  forallb (parseable df d) before = true ->
  parseable df d x = false ->
  to_datetime_cells (column df d) (before ++ x :: after)
  = inl (DateParseError x).
Proof.
  intros Hb Hx. induction before as [|y before IH]; simpl in Hb |- *.
  - destruct x as [|t|n]; simpl in Hx |- *; [discriminate| |];
      destruct (to_datetime_value pd (column df d) _);
      (discriminate || reflexivity).
  - apply andb_true_iff in Hb. destruct Hb as [Hy Hb].
    rewrite (IH Hb).
    destruct y as [|t|n]; simpl in Hy |- *; [reflexivity| |];
      destruct (to_datetime_value pd (column df d) _);
      (discriminate || reflexivity).
Qed.

(** X20: the error pair names the first thing that goes wrong in the order
    the code reads the table: a missing date column; else the first cell of
    the date column, in row order, that [to_datetime] cannot read in that
    column, even when the description or amount column is missing too;
    else a missing description column; else a missing amount column. *)
Theorem error_precedence (df : DataFrame) (d s a : pystr) (c : option pystr) :
  (in_columns d df = false ->
   clean_transaction_data df d s a c
   = (None, Some (Error_processing_data (KeyError d))))
  /\ (forall before x after,
      in_columns d df = true ->
      column df d = before ++ x :: after ->
      (forall y, In y before ->
         y = CNull \/ to_datetime_value pd (column df d) y <> None) ->
      x <> CNull ->
      to_datetime_value pd (column df d) x = None ->
      clean_transaction_data df d s a c
      = (None, Some (Error_processing_data (DateParseError x))))
  /\ (in_columns d df = true ->
      (forall y, In y (column df d) ->
         y = CNull \/ to_datetime_value pd (column df d) y <> None) ->
      in_columns s df = false ->
      clean_transaction_data df d s a c
      = (None, Some (Error_processing_data (KeyError s))))
  /\ (in_columns d df = true ->
      (forall y, In y (column df d) ->
         y = CNull \/ to_datetime_value pd (column df d) y <> None) ->
      in_columns s df = true -> in_columns a df = false ->
      clean_transaction_data df d s a c
      = (None, Some (Error_processing_data (KeyError a)))).
Proof.
  assert (Hall : forall l,
            (forall y, In y l ->
               y = CNull \/ to_datetime_value pd (column df d) y <> None) ->
            forallb (parseable df d) l = true).
  { intros l H. apply forallb_forall. intros y Hy.
    apply parseable_iff. now apply H. }
  split; [|split; [|split]].
  - intros Hd.
    destruct (build_clean_df_raises pd df d s a c) as [e [E [Ee _]]];
      [now rewrite Hd|].
    unfold clean_transaction_data. now rewrite E, (Ee Hd).
  - intros before x after Hd Hcol Hb Hx Hp.
    apply index_of_in_columns in Hd. destruct Hd as [jd Ed].
    unfold clean_transaction_data, build_clean_df, getitem.
    rewrite Ed. cbn [bind ret]. unfold to_datetime.
    rewrite <- (column_index _ _ _ Ed). rewrite Hcol at 2.
    rewrite to_datetime_cells_first; [reflexivity | now apply Hall |].
    destruct x as [|t|n]; [contradiction| |]; simpl; now rewrite Hp.
  - intros Hd Hp Hs.
    destruct (build_clean_df_raises pd df d s a c) as [e [E [_ [_ [Ee _]]]]];
      [now rewrite Hd, Hs|].
    unfold clean_transaction_data. now rewrite E, (Ee Hd (Hall _ Hp) Hs).
  - intros Hd Hp Hs Ha.
    destruct (build_clean_df_raises pd df d s a c) as [e [E [_ [_ [_ Ee]]]]];
      [now rewrite Hd, Hs, Ha|].
    unfold clean_transaction_data. now rewrite E, (Ee Hd (Hall _ Hp) Hs).
Qed.

End ErrorOrder.

(** ** The further properties on concrete inputs *)

Example import_after_cleaning :
  Db.add_bulk_transactions SampleStore.clock SampleStore.new_store
    SampleStore.cleaned
  = inr (SampleStore.imported, 2%nat).
Proof. vm_compute. reflexivity. Qed.

(** Where [astype(str)] keeps a missing value, the frame cleaned from a
    table with a missing category cell cannot be imported. *)
Example import_of_missing_category_fails :
  Sample.ingest3 Sample.blank_category (py "date") (py "desc") (py "amt")
    (Some (py "cat"))
  = (Some [ mkTransaction 0 (Some (py "2024-01-15")) (py "COFFEE")
              (Int 3) (Some []);
            mkTransaction 1 (Some (py "2024-01-16")) (py "TEA")
              (Int 2) None ],
     None)
  /\ Db.add_bulk_transactions SampleStore.clock SampleStore.new_store
       [ mkTransaction 0 (Some (py "2024-01-15")) (py "COFFEE")
           (Int 3) (Some []);
         mkTransaction 1 (Some (py "2024-01-16")) (py "TEA")
           (Int 2) None ]
     = inl (Db.IntegrityError (py "transactions.category")).
Proof. split; vm_compute; reflexivity. Qed.

Example upper_case_extension_rejected :
  parse_uploaded_file SampleStore.read_csv SampleStore.read_excel
    (mkUploadedFile (py "STATEMENT.CSV") [])
  = (None, Some Please_upload_a_CSV_or_Excel_file).
Proof. reflexivity. Qed.

Lemma imported_well_formed :
  Db.well_formed (Db.transactions SampleStore.imported).
Proof.
  unfold Db.well_formed, Db.ids. simpl.
  split; [repeat constructor; lia|].
  split; [repeat constructor; lia | lia].
Defined.

Lemma output_records_valid_witness :
  exists row dt,
    nth_error (rows Sample.statement_ok) 0 = Some row
    /\ to_date Sample.pandas2 Sample.statement_ok (py "date")
         (cell Sample.statement_ok (py "date") row) = Some dt
    /\ Some (py "2024-01-15") = Some (strftime dt)
    /\ Float 23.45%float
       = to_amount Sample.pandas2
           (amount_texts Sample.pandas2 Sample.statement_ok (py "amt"))
           (clean_amount Sample.pandas2
              (cell Sample.statement_ok (py "amt") row))
    /\ greater_than_zero (Float 23.45%float)
    /\ py "JOES DINER" <> [].
Proof.
  exact (output_records_valid Sample.pandas2 Sample.statement_ok (py "date")
           (py "desc") (py "amt") None SampleStore.cleaned SampleStore.diner
           eq_refl (or_introl eq_refl)).
Defined.

Lemma ingestion_succeeds_iff_witness :
  exists out,
    Sample.ingest Sample.null_like_date (py "date") (py "desc") (py "amt")
      None = (Some out, None).
Proof.
  apply (proj1 (ingestion_succeeds_iff Sample.pandas2 Sample.null_like_date
                  (py "date") (py "desc") (py "amt") None)).
  split; [reflexivity|]. split; [reflexivity|]. split; [reflexivity|].
  intros row [<- | [<- | []]]; right; discriminate.
Defined.

Lemma empty_table_outcome_witness :
  Sample.ingest (mkDataFrame [py "date"; py "desc"; py "amt"] [])
    (py "date") (py "desc") (py "amt") None
  = (Some [], None).
Proof.
  apply (empty_table_outcome Sample.pandas2
           (mkDataFrame [py "date"; py "desc"; py "amt"] [])
           (py "date") (py "desc") (py "amt") None eq_refl);
    reflexivity.
Defined.

Lemma ingestion_of_repeated_rows_witness :
  Sample.ingest
    (mkDataFrame (columns Sample.statement_ok)
       (rows Sample.statement_ok ++ rows Sample.statement_ok))
    (py "date") (py "desc") (py "amt") None
  = (Some (SampleStore.cleaned ++ map (shift_index 2) SampleStore.cleaned),
     None).
Proof.
  exact (ingestion_of_repeated_rows Sample.pandas2
           (columns Sample.statement_ok) (rows Sample.statement_ok)
           (py "date") (py "desc") (py "amt") None
           SampleStore.cleaned eq_refl).
Defined.

Lemma parse_uploaded_file_outcome_witness :
  parse_uploaded_file SampleStore.read_csv SampleStore.read_excel
    (mkUploadedFile (py "statement.csv") [])
  = (Some Sample.statement_ok, None)
  /\ parse_uploaded_file SampleStore.read_csv SampleStore.read_excel
       (mkUploadedFile (py "statement.pdf") [])
     = (None, Some Please_upload_a_CSV_or_Excel_file).
Proof.
  split.
  - apply (parse_uploaded_file_outcome SampleStore.read_csv
             SampleStore.read_excel (mkUploadedFile (py "statement.csv") [])).
    exists (py "statement"). reflexivity.
  - apply (parse_uploaded_file_outcome SampleStore.read_csv
             SampleStore.read_excel (mkUploadedFile (py "statement.pdf") [])).
    intros [stem H].
    assert (E : endswith (py "statement.pdf") (py ".csv")
                || endswith (py "statement.pdf") (py ".xlsx")
                || endswith (py "statement.pdf") (py ".xls") = true).
    { cbn [name] in H. destruct H as [H | [H | H]].
      - assert (E : endswith (py "statement.pdf") (py ".csv") = true)
          by (apply endswith_stem; eauto).
        now rewrite E.
      - assert (E : endswith (py "statement.pdf") (py ".xlsx") = true)
          by (apply endswith_stem; eauto).
        rewrite E. now rewrite orb_true_r.
      - assert (E : endswith (py "statement.pdf") (py ".xls") = true)
          by (apply endswith_stem; eauto).
        rewrite E. now rewrite orb_true_r. }
    discriminate E.
Defined.

Lemma bulk_insert_appends_witness :
  2%nat = List.length SampleStore.cleaned
  /\ Db.net_worth_items SampleStore.imported
     = Db.net_worth_items SampleStore.new_store
  /\ exists new,
       Db.records (Db.transactions SampleStore.imported)
       = Db.records (Db.transactions SampleStore.new_store) ++ new
       /\ map fst new
          = map (fun k => (Db.seq (Db.transactions SampleStore.new_store) + 1
                           + Z.of_nat k)%Z)
                (List.seq O (List.length SampleStore.cleaned))
       /\ Forall2 stores SampleStore.cleaned (map snd new).
Proof.
  exact (bulk_insert_appends SampleStore.clock SampleStore.new_store
           SampleStore.imported SampleStore.cleaned 2
           well_formed_empty eq_refl).
Defined.

Lemma import_of_cleaned_frame_succeeds_witness :
  exists db',
    Db.add_bulk_transactions SampleStore.clock SampleStore.new_store
      SampleStore.cleaned
    = inr (db', List.length SampleStore.cleaned).
Proof.
  apply (import_of_cleaned_frame_succeeds Sample.pandas2 Sample.statement_ok
           (py "date") (py "desc") (py "amt") None SampleStore.cleaned
           SampleStore.clock SampleStore.new_store eq_refl well_formed_empty).
  - vm_compute. discriminate.
  - left. reflexivity.
  - repeat constructor; discriminate.
Defined.

Lemma update_transaction_changes_one_row_witness :
  exists db',
    Db.update_transaction SampleStore.imported 2 (Some (py "2024-01-17"))
      (Some (py "TARGET")) (Some (Int 12)) (Some (py "Shopping")) = inr db'
    /\ Db.lookup (Db.transactions db') 2
       = Some (Db.mkTransactionRow (py "2024-01-17") (py "TARGET") 12%float
                 (py "Shopping") (py "2024-02-01 09:00:00")).
Proof.
  destruct (proj1 (update_transaction_changes_one_row SampleStore.imported 2
                     (py "2024-01-17") (py "TARGET") (Int 12) (py "Shopping"))
              eq_refl) as [db' [E [_ [Hl _]]]].
  exists db'. split; [exact E | exact Hl].
Defined.

Lemma add_transaction_then_lookup_witness :
  Db.lookup
    (Db.transactions SampleStore.imported)
    (Db.seq (Db.transactions
               (Db.mkDatabase
                  (Db.mkTable
                     [ (1%Z, Db.mkTransactionRow (py "2024-01-15")
                               (py "JOES DINER") 23.45%float
                               (py "Uncategorized")
                               (py "2024-02-01 09:00:00")) ] 1%Z)
                  Db.empty)) + 1)%Z
  = Some (Db.mkTransactionRow (py "2024-01-16") (py "WALMART") 10%float
            (py "Uncategorized") (py "2024-02-01 09:00:00")).
Proof.
  apply (add_transaction_then_lookup (py "2024-02-01 09:00:00")
           (Db.mkDatabase
              (Db.mkTable
                 [ (1%Z, Db.mkTransactionRow (py "2024-01-15")
                           (py "JOES DINER") 23.45%float (py "Uncategorized")
                           (py "2024-02-01 09:00:00")) ] 1%Z)
              Db.empty)
           SampleStore.imported (py "2024-01-16") (py "WALMART") (Int 10)
           (py "Uncategorized")).
  - unfold Db.well_formed, Db.ids. simpl.
    split; [repeat constructor|]. split; [repeat constructor; lia | lia].
  - vm_compute. reflexivity.
Defined.

Lemma ids_are_never_reused_witness :
  exists new_id,
    Db.ids (Db.transactions
              (Db.mkDatabase
                 (Db.mkTable
                    [ (3%Z, Db.mkTransactionRow (py "2024-03-01") (py "RENT")
                              900%float (py "Bills & Utilities")
                              (py "2024-03-01 08:00:00")) ] 3%Z)
                 Db.empty))
    = Db.ids (Db.transactions
                (Db.clear_all_transactions SampleStore.imported)) ++ [new_id]
    /\ forall i, In i (Db.ids (Db.transactions SampleStore.imported)) ->
                 (i < new_id)%Z.
Proof.
  apply (ids_are_never_reused (py "2024-03-01 08:00:00") SampleStore.imported
           (Db.mkDatabase
              (Db.mkTable
                 [ (3%Z, Db.mkTransactionRow (py "2024-03-01") (py "RENT")
                           900%float (py "Bills & Utilities")
                           (py "2024-03-01 08:00:00")) ] 3%Z)
              Db.empty)
           (Db.clear_all_transactions SampleStore.imported)
           (py "2024-03-01") (py "RENT") (Float 900%float)
           (py "Bills & Utilities")
           imported_well_formed (or_introl eq_refl) eq_refl).
Defined.

Lemma update_net_worth_item_keeps_type_witness :
  exists db',
    Db.update_net_worth_item (py "2024-03-02 10:00:00")
      (Db.mkDatabase Db.empty
         (Db.mkTable
            [ (1%Z, Db.mkNetWorthRow (py "asset") (py "Savings") (py "Cash")
                      1500%float None (py "2024-03-01 08:00:00")
                      (py "2024-03-01 08:00:00")) ] 1%Z))
      1 (Some (py "Savings")) (Some (py "Cash")) (Some (Float 1750.5%float))
      None = inr db'
    /\ Db.lookup (Db.net_worth_items db') 1
       = Some (Db.mkNetWorthRow (py "asset") (py "Savings") (py "Cash")
                 1750.5%float None (py "2024-03-01 08:00:00")
                 (py "2024-03-02 10:00:00")).
Proof.
  destruct (proj1 (update_net_worth_item_keeps_type
                     (py "2024-03-02 10:00:00")
                     (Db.mkDatabase Db.empty
                        (Db.mkTable
                           [ (1%Z, Db.mkNetWorthRow (py "asset")
                                     (py "Savings") (py "Cash") 1500%float
                                     None (py "2024-03-01 08:00:00")
                                     (py "2024-03-01 08:00:00")) ] 1%Z))
                     1 (py "Savings") (py "Cash") (Float 1750.5%float) None)
              eq_refl) as [db' [E [_ [Hl _]]]].
  exists db'. split; [exact E | exact Hl].
Defined.

Lemma add_single_stores_a_filled_row_witness :
  (forall final, Added (py "POS") = Added final ->
     final = final_description (py "POS")
     /\ strip final <> []
     /\ PrimFloat.ltb PrimFloat.zero 4.5%float = true
     /\ Db.lookup
          (Db.transactions
             (Db.mkDatabase
                (Db.mkTable
                   [ (1%Z, Db.mkTransactionRow (py "2024-03-05") (py "POS")
                             4.5%float (py "Shopping")
                             (py "2024-03-05 12:00:00")) ] 1%Z)
                Db.empty))
          (Db.seq (Db.transactions SampleStore.new_store) + 1)%Z
        = Some (Db.mkTransactionRow (strftime (mkDate 2024 3 5)) final
                  4.5%float (py "Shopping") (py "2024-03-05 12:00:00")))
  /\ ((forall final, Added (py "POS") <> Added final) ->
      Db.mkDatabase
        (Db.mkTable
           [ (1%Z, Db.mkTransactionRow (py "2024-03-05") (py "POS")
                     4.5%float (py "Shopping") (py "2024-03-05 12:00:00")) ]
           1%Z)
        Db.empty
      = SampleStore.new_store).
Proof.
  exact (add_single_stores_a_filled_row (py "2024-03-05 12:00:00")
           SampleStore.new_store _ (mkDate 2024 3 5) (py "POS") 4.5%float
           (py "Shopping") (Added (py "POS")) well_formed_empty eq_refl).
Defined.

Lemma error_precedence_witness :
  Sample.ingest Sample.all_abc (py "date") (py "memo") (py "amt") None
  = (None,
     Some (Error_processing_data (DateParseError (CStr (py "bad-date")))))
  /\ Sample.ingest Sample.mixed_dates (py "date") (py "memo") (py "amt") None
     = (None,
        Some (Error_processing_data
                (DateParseError (CStr (py "2024-01-16"))))).
Proof.
  split.
  - apply (proj1 (proj2 (error_precedence Sample.pandas2 Sample.all_abc
                           (py "date") (py "memo") (py "amt") None))
             [CStr (py "01/15/2024")] (CStr (py "bad-date")) []).
    + reflexivity.
    + reflexivity.
    + intros y [<- | []]. right. discriminate.
    + discriminate.
    + reflexivity.
  - apply (proj1 (proj2 (error_precedence Sample.pandas2 Sample.mixed_dates
                           (py "date") (py "memo") (py "amt") None))
             [CStr (py "01/15/2024")] (CStr (py "2024-01-16")) []).
    + reflexivity.
    + reflexivity.
    + intros y [<- | []]. right. discriminate.
    + discriminate.
    + reflexivity.
Defined.
